(** * llm-doc-assistant: the backend's ingestion, retrieval and chat logic

    A shallow embedding of the JavaScript backend
    (backend/services/processor.js, the LangChain service in the same
    listing, backend/controllers/chat.controller.js,
    backend/scripts/ingest.js, the chat routes and the upload route's file
    naming), followed by the properties the specification states about it
    and by further properties read off the code.

    Conventions.
    - A JS string is a [string], one character per code unit in the range
      U+0000-U+00FF; [toLowerCase] acts character by character.
    - A JS value that ends up in document metadata is a [JsVal]; numbers are
      integers ([Z]).
    - A JS object used as a dictionary (document metadata, the [loaders]
      table, the conversation [Map], the data/processed directory) is a
      [gmap] keyed by strings.
    - Everything outside the Node process (Chroma, the llama.cpp server, the
      document loaders, the clock, [Math.random]) is an oracle over an
      abstract external state; [async] code is a state-and-exception monad
      over the process state, and every call that crosses the process
      boundary is appended to a call log.
    - [console.log]/[console.error] output is not modelled. *)

From Stdlib Require Import ZArith Lia String Ascii.
From stdpp Require Import base option list strings gmap pretty.

Local Open Scope string_scope.
Local Open Scope list_scope.
Local Open Scope Z_scope.

(** ** JavaScript strings *)

Module Js.

(** [String.prototype.toLowerCase] on one character: the letters A-Z, and
    the upper-case letters of the Latin-1 supplement (U+00C0-U+00DE except
    the multiplication sign U+00D7), move 32 code points up. *)
Definition lower_char (c : ascii) : ascii :=
  let n := nat_of_ascii c in
  if ((65 <=? n)%nat && (n <=? 90)%nat)
     || ((192 <=? n)%nat && (n <=? 222)%nat && negb (n =? 215)%nat)
  then ascii_of_nat (n + 32) else c.

Fixpoint toLowerCase (s : string) : string :=
  match s with
  | EmptyString => EmptyString
  | String c s' => String (lower_char c) (toLowerCase s')
  end.

(** [s.startsWith(p)] *)
Fixpoint startsWith (s p : string) {struct p} : bool :=
  match p, s with
  | EmptyString, _ => true
  | String _ _, EmptyString => false
  | String a p', String b s' => if decide (a = b) then startsWith s' p' else false
  end.

(** [s.includes(sub)]: [sub] occurs in [s] at some offset. *)
Fixpoint includes (s sub : string) : bool :=
  startsWith s sub ||
  match s with
  | EmptyString => false
  | String _ s' => includes s' sub
  end.

(** [parts.join(sep)] *)
Fixpoint join (sep : string) (parts : list string) : string :=
  match parts with
  | [] => ""
  | [p] => p
  | p :: rest => p +:+ sep +:+ join sep rest
  end.

(** [Array.prototype.some] *)
Definition some {A} (f : A -> bool) (l : list A) : bool := existsb f l.

(** Values that can sit in a metadata object. *)
Inductive JsVal : Type :=
| JUndefined
| JNull
| JBool (b : bool)
| JNum (n : Z)
| JStr (s : string).

(** JS truthiness: [undefined], [null], [false], [0] and the empty string
    are falsy. *)
Definition truthy (v : JsVal) : bool :=
  match v with
  | JUndefined | JNull => false
  | JBool b => b
  | JNum n => negb (n =? 0)
  | JStr s => negb (String.eqb s "")
  end.

(** [a || b] *)
Definition or (a b : JsVal) : JsVal := if truthy a then a else b.

(** Property access [o.k] on an object used as a dictionary: a missing key
    reads as [undefined]. *)
Definition prop (o : gmap string JsVal) (k : string) : JsVal :=
  default JUndefined (o !! k).

End Js.

(** ** Data model *)

(** A thrown [Error]: [error.message] and, for network errors, [error.code]. *)
Record Error : Type := mkError { err_message : string; err_code : option string }.

(** The outcome of a call: a value, or a thrown error. *)
Inductive result (A : Type) : Type :=
| Ok (a : A)
| Throw (e : Error).
Arguments Ok {A} a.
Arguments Throw {A} e.

(** A LangChain [Document]: the text and its metadata object. *)
Record Document : Type := mkDocument {
  pageContent : string;
  metadata : gmap string Js.JsVal;
}.

(** A citation as [LangChainService.query] builds it. *)
Record Source : Type := mkSource {
  source : Js.JsVal;
  page : Js.JsVal;
  chunk : Js.JsVal;
}.

Inductive Role : Type := system | user | assistant.

Record Message : Type := mkMessage {
  role : Role;
  content : string;
  msg_sources : option (list Source);
  msg_timestamp : string;
}.

Record Conversation : Type := mkConversation {
  conv_id : string;
  messages : list Message;
  createdAt : string;
}.

Inductive TicketStatus : Type := pending | in_progress | resolved.

Record Ticket : Type := mkTicket {
  escalationId : string;
  ticket_conversationId : string;
  ticket_reason : string;
  status : TicketStatus;
  ticket_timestamp : string;
}.

(** What [LangChainService.query] returns: [{text, sources}] on the normal
    path, [{text, error, escalate}] from its catch block; a field that is
    absent is [None]. *)
Record QueryResult : Type := mkQueryResult {
  qr_text : string;
  qr_sources : option (list Source);
  qr_error : option string;
  qr_escalate : option bool;
}.

(** What [processMessage] returns. *)
Record ChatResponse : Type := mkChatResponse {
  text : string;
  sources : list Source;
  error : option string;
  conversationId : string;
  escalate : bool;
  timestamp : string;
}.

(** The three loader classes behind the [loaders] table. *)
Inductive LoaderKind : Type := PDFLoader | DocxLoader | TextLoader.

(** The JSON written under data/processed: the service writes [info], the
    ingest script a shorter object. *)
Inductive ManifestJson : Type :=
| ServiceInfo (id originalFile filename : string) (chunks : nat)
    (processedAt filetype : string)
| ScriptInfo (originalFile : string) (chunks : nat) (processedAt : string).

(** The input of [chain.invoke]: [{question, chatHistory}]. *)
Record ChainInput : Type := mkChainInput {
  ci_question : string;
  ci_chatHistory : string;
}.

(** The call log: what a recording test double placed around the chain
    stages, the file system and the external services would see, in order,
    each call with its outcome. *)
Inductive Call : Type :=
| CallLoad (kind : LoaderKind) (filePath : string) (r : result (list Document))
| CallSplit (docs : list Document) (r : result (list Document))
| CallEmbeddings (r : result unit)
| CallUpsert (docs : list Document) (r : result unit)
| CallWriteFile (name : string) (json : ManifestJson)
| CallCondense (prompt : string) (r : result string)
| CallRetrieve (query : string) (r : result (list Document))
| CallCompletion (prompt : string) (r : result string).

(** ** The runtime: Node built-ins, LangChain and the external services

    None of these is code of the repository; each is a parameter.  [E] is
    the state of everything outside the process. *)
Class Runtime (E : Type) : Type := {
  (** [path.extname], [path.basename(p)] and [path.basename(p, ext)]; Node's
      [extname] returns the empty string or a string that starts with a dot,
      so a lookup of its result in [loaders] never reaches an inherited
      property. *)
  extname : string -> string;
  basename : string -> option string -> string;
  (** [Date.now()] / [new Date()], and [d.toISOString()] *)
  Date_now : E -> Z * E;
  toISOString : Z -> string;
  (** [Math.random().toString(36).substring(2, 7)] *)
  random_suffix : E -> string * E;
  (** [loaders[ext](filePath).load()] *)
  loader_load : LoaderKind -> string -> E -> result (list Document) * E;
  (** [textSplitter.splitDocuments(docs)] *)
  splitDocuments : list Document -> E -> result (list Document) * E;
  (** [new HuggingFaceTransformersEmbeddings(...)] *)
  new_embeddings : E -> result unit * E;
  (** [Chroma.fromDocuments(docs, embeddings, ...)]: embeds and upserts *)
  Chroma_fromDocuments : list Document -> E -> result unit * E;
  (** the constructors run by [LangChainService.initialize] *)
  langchain_setup : E -> result unit * E;
  (** [retriever.getRelevantDocuments(query)] *)
  getRelevantDocuments : string -> E -> result (list Document) * E;
  (** [axios.post('http://localhost:8080/completion', {prompt, ...})],
      returning [response.data.content] *)
  axios_post_completion : string -> E -> result string * E;
  (** how [PromptTemplate] renders a template variable whose value is an
      object rather than a string *)
  interpolate_object : ChainInput -> string;
  (** [StringOutputParser] applied to a rendered prompt *)
  StringOutputParser_invoke : string -> result string;
}.

(** ** Process state and the [async] monad *)

Section Model.
Context {E : Type} {RT : Runtime E}.

Record World : Type := mkWorld {
  ext : E;
  calls : list Call;
  (** [LangChainService.initialized] *)
  initialized : bool;
  (** processor.js: [embeddingsInstance] is non-null *)
  embeddingsInstance : bool;
  (** chat.controller.js: the [conversations] Map *)
  conversations : gmap string Conversation;
  (** the files of data/processed, by file name *)
  processedDir : gmap string ManifestJson;
}.

Definition set_ext (e : E) (w : World) : World :=
  mkWorld e (calls w) (initialized w) (embeddingsInstance w)
    (conversations w) (processedDir w).
Definition add_call (c : Call) (w : World) : World :=
  mkWorld (ext w) (calls w ++ [c]) (initialized w) (embeddingsInstance w)
    (conversations w) (processedDir w).
Definition set_initialized (b : bool) (w : World) : World :=
  mkWorld (ext w) (calls w) b (embeddingsInstance w)
    (conversations w) (processedDir w).
Definition set_embeddingsInstance (b : bool) (w : World) : World :=
  mkWorld (ext w) (calls w) (initialized w) b
    (conversations w) (processedDir w).
Definition set_conversations (m : gmap string Conversation) (w : World) : World :=
  mkWorld (ext w) (calls w) (initialized w) (embeddingsInstance w)
    m (processedDir w).
Definition set_processedDir (m : gmap string ManifestJson) (w : World) : World :=
  mkWorld (ext w) (calls w) (initialized w) (embeddingsInstance w)
    (conversations w) m.

(** A computation may change the world and then return or throw; what it
    changed before throwing stays changed. *)
Definition M (A : Type) : Type := World -> result A * World.

Definition ret {A} (a : A) : M A := fun w => (Ok a, w).
Definition throw {A} (e : Error) : M A := fun w => (Throw e, w).
Definition bind {A B} (m : M A) (k : A -> M B) : M B :=
  fun w => match m w with
           | (Ok a, w') => k a w'
           | (Throw e, w') => (Throw e, w')
           end.
(** [try { m } catch (error) { h error }] *)
Definition try_catch {A} (m : M A) (h : Error -> M A) : M A :=
  fun w => match m w with
           | (Ok a, w') => (Ok a, w')
           | (Throw e, w') => h e w'
           end.

(** An oracle that cannot fail, and one that can. *)
Definition ask {A} (f : E -> A * E) : M A :=
  fun w => let (a, e') := f (ext w) in (Ok a, set_ext e' w).
Definition call {A} (f : E -> result A * E) : M A :=
  fun w => let (r, e') := f (ext w) in (r, set_ext e' w).
Definition log (c : Call) : M unit := fun w => (Ok tt, add_call c w).
(** A fallible oracle whose call and outcome go to the log. *)
Definition traced {A} (f : E -> result A * E) (entry : result A -> Call) : M A :=
  fun w => let (r, e') := f (ext w) in (r, add_call (entry r) (set_ext e' w)).

(** [w'] is [w] after some calls: the log grew by [new], and neither the
    conversations nor the manifests changed. *)
Definition extends (w w' : World) (new : list Call) : Prop :=
  calls w' = calls w ++ new /\
  conversations w' = conversations w /\
  processedDir w' = processedDir w.

End Model.

Arguments World E : clear implicits.
Arguments M E A : clear implicits.

Notation "'let*' x ':=' c 'in' k" := (bind c (fun x => k))
  (at level 10, x pattern, c at level 100, k at level 200).

(** [new Date().toISOString()] *)
Definition now_iso {E} {RT : Runtime E} : M E string :=
  let* t := ask Date_now in ret (toISOString t).

(** ** backend/services/processor.js *)

Module Processor.
Section WithRuntime.
Context {E : Type} {RT : Runtime E}.

(** The [loaders] table. *)
Definition loaders : gmap string LoaderKind :=
  <[".pdf" := PDFLoader]> (<[".docx" := DocxLoader]>
    (<[".txt" := TextLoader]> (<[".md" := TextLoader]> ∅))).

(** [getEmbeddings]: builds the embeddings object on first use. *)
Definition getEmbeddings : M E unit :=
  fun w =>
    if embeddingsInstance w then (Ok tt, w)
    else (let* _ := traced new_embeddings CallEmbeddings in
          fun w' => (Ok tt, set_embeddingsInstance true w')) w.

(** [splitDocs.map((doc, i) => ({...doc, metadata: {...doc.metadata,
    source: fileName, chunk: i, filePath, uploadedAt: new Date()...}}))];
    [i] is the index of the head of [docs]. *)
Fixpoint addMetadata (fileName filePath : string) (i : nat)
    (docs : list Document) : M E (list Document) :=
  match docs with
  | [] => ret []
  | doc :: rest =>
      let* uploadedAt := now_iso in
      let doc' :=
        mkDocument (pageContent doc)
          (<["uploadedAt" := Js.JStr uploadedAt]>
             (<["filePath" := Js.JStr filePath]>
                (<["chunk" := Js.JNum (Z.of_nat i)]>
                   (<["source" := Js.JStr fileName]> (metadata doc))))) in
      let* rest' := addMetadata fileName filePath (S i) rest in
      ret (doc' :: rest')
  end.

Definition load (kind : LoaderKind) (filePath : string) : M E (list Document) :=
  traced (loader_load kind filePath) (CallLoad kind filePath).

Definition split (docs : list Document) : M E (list Document) :=
  traced (splitDocuments docs) (CallSplit docs).

Definition fromDocuments (docs : list Document) : M E unit :=
  traced (Chroma_fromDocuments docs) (CallUpsert docs).

(** [fs.writeFileSync(path.join(processedDir, name), JSON.stringify(json))] *)
Definition writeFileSync (name : string) (json : ManifestJson) : M E unit :=
  let* _ := log (CallWriteFile name json) in
  fun w => (Ok tt, set_processedDir (<[name := json]> (processedDir w)) w).

Definition processFile (filePath : string) : M E ManifestJson :=
  let ext := Js.toLowerCase (extname filePath) in
  match loaders !! ext with
  | None => throw (mkError ("Unsupported file type: " +:+ ext) None)
  | Some loader =>
      let fileName := basename filePath None in
      let id := fileName in
      let* docs := load loader filePath in
      let* splitDocs := split docs in
      let* processedDocs := addMetadata fileName filePath 0 splitDocs in
      let* _ := getEmbeddings in
      let* _ := fromDocuments processedDocs in
      let* processedAt := now_iso in
      let info :=
        ServiceInfo id filePath fileName (length processedDocs) processedAt ext in
      let* _ := writeFileSync (basename filePath (Some ext) +:+ ".json") info in
      ret info
  end.

End WithRuntime.
End Processor.

(** ** backend/scripts/ingest.js *)

Module Ingest.
Section WithRuntime.
Context {E : Type} {RT : Runtime E}.

Definition loaders : gmap string LoaderKind :=
  <[".pdf" := PDFLoader]> (<[".docx" := DocxLoader]>
    (<[".txt" := TextLoader]> (<[".md" := TextLoader]> ∅))).

(** [splitDocs.map((doc, i) => ({...doc, metadata: {...doc.metadata,
    source: fileName, chunk: i, filePath}}))] *)
Definition addMetadata (filePath : string) (docs : list Document) : list Document :=
  imap (fun i doc =>
          let fileName := basename filePath None in
          mkDocument (pageContent doc)
            (<["filePath" := Js.JStr filePath]>
               (<["chunk" := Js.JNum (Z.of_nat i)]>
                  (<["source" := Js.JStr fileName]> (metadata doc))))) docs.

(** The script's [processFile]: [None] is the bare [return;] of the
    extension check, [Some n] a returned number. *)
Definition processFile (filePath : string) : M E (option nat) :=
  try_catch
    (let ext := Js.toLowerCase (extname filePath) in
     match loaders !! ext with
     | None => ret None
     | Some loader =>
         let* docs := Processor.load loader filePath in
         let* splitDocs := Processor.split docs in
         let processedDocs := addMetadata filePath splitDocs in
         let* _ := Processor.fromDocuments processedDocs in
         let* processedAt := now_iso in
         let* _ := Processor.writeFileSync
                     (basename filePath (Some ext) +:+ ".json")
                     (ScriptInfo filePath (length processedDocs) processedAt) in
         ret (Some (length processedDocs))
     end)
    (fun error => ret (Some 0%nat)).

End WithRuntime.
End Ingest.

(** ** The LangChain service (second listing of services/processor.js) *)

Module LangChainService.
Section WithRuntime.
Context {E : Type} {RT : Runtime E}.

Definition nl : string := String (ascii_of_nat 10) "".
Definition indent : string := "        ".

(** [questionGeneratorTemplate], rendered. *)
Definition questionGeneratorTemplate (chatHistory question : string) : string :=
  "Given the following conversation and a follow-up question, rephrase the follow-up question to be a standalone question that captures all relevant context from the conversation."
  +:+ nl +:+ nl
  +:+ indent +:+ "Chat History:" +:+ nl
  +:+ indent +:+ chatHistory +:+ nl
  +:+ indent +:+ nl
  +:+ indent +:+ "Follow-up question: " +:+ question +:+ nl
  +:+ indent +:+ nl
  +:+ indent +:+ "Standalone question:".

(** [qaTemplate], rendered. *)
Definition qaTemplate (question context : string) : string :=
  "You are an AI assistant for answering questions about internal documentation." +:+ nl
  +:+ indent +:+ "Use the following pieces of retrieved context to answer the question." +:+ nl
  +:+ indent +:+ "If you don't know the answer, just say that you don't know." +:+ nl
  +:+ indent +:+ "Use three sentences maximum and keep the answer concise." +:+ nl
  +:+ indent +:+ nl
  +:+ indent +:+ "Question: " +:+ question +:+ nl
  +:+ indent +:+ nl
  +:+ indent +:+ "Context:" +:+ nl
  +:+ indent +:+ context +:+ nl
  +:+ indent +:+ nl
  +:+ indent +:+ "Answer:".

Definition apology : string :=
  "I'm sorry, I encountered an error while processing your request.".

(** [formatDocumentsAsString]: the page contents, separated by a blank line. *)
Definition formatDocumentsAsString (docs : list Document) : string :=
  Js.join (nl +:+ nl) (map pageContent docs).

(** [this.retriever.getRelevantDocuments(query)], recorded in the log with
    its outcome. *)
Definition retrieve (query : string) : M E (list Document) :=
  traced (getRelevantDocuments query) (CallRetrieve query).

(** [initialize]: on success sets [initialized]; on failure clears it and
    rethrows. *)
Definition initialize : M E bool :=
  try_catch
    (let* _ := call langchain_setup in
     fun w => (Ok true, set_initialized true w))
    (fun error w => (Throw error, set_initialized false w)).

Definition retrieveDocuments (query : string) : M E string :=
  try_catch
    (let* docs := retrieve query in ret (formatDocumentsAsString docs))
    (fun error => ret "").

Definition callLlamaServer (prompt : string) : M E string :=
  try_catch
    (traced (axios_post_completion prompt) (CallCompletion prompt))
    (fun error => ret apology).

(** The stages of [this.chain], in order.  Each takes the previous stage's
    output. *)

(** [{ question: new RunnablePassthrough(), chatHistory: () => "" }] *)
Definition stage1 (input : ChainInput) : ChainInput * string := (input, "").

(** [{ question: questionGeneratorTemplate.pipe(new StringOutputParser()),
       chatHistory: ({ chatHistory }) => chatHistory }] *)
Definition stage2 (x : ChainInput * string) : M E (string * string) :=
  let '(question, chatHistory) := x in
  let prompt := questionGeneratorTemplate chatHistory (interpolate_object question) in
  let* standalone :=
    traced (fun e => (StringOutputParser_invoke prompt, e)) (CallCondense prompt) in
  ret (standalone, chatHistory).

(** [{ context: ({ question }) => this.retrieveDocuments(question),
       question: ({ question }) => question }] *)
Definition stage3 (x : string * string) : M E (string * string) :=
  let '(question, _) := x in
  let* context := retrieveDocuments question in
  ret (context, question).

(** [this.qaTemplate] *)
Definition stage4 (x : string * string) : string :=
  let '(context, question) := x in qaTemplate question context.

(** [this.chain.invoke(input)] *)
Definition chain_invoke (input : ChainInput) : M E string :=
  let* x2 := stage2 (stage1 input) in
  let* x3 := stage3 x2 in
  callLlamaServer (stage4 x3).

(** [shouldEscalate(error)] of the service *)
Definition criticalErrors : list string := ["ECONNREFUSED"; "ETIMEDOUT"; "no documents"].

Definition shouldEscalate (error : Error) : bool :=
  Js.some (fun errType =>
             Js.includes (err_message error) errType
             || match err_code error with
                | Some c => negb (String.eqb c "") && Js.includes c errType
                | None => false
                end) criticalErrors.

(** One entry of [docs.map(doc => ({source: doc.metadata.source,
    page: doc.metadata.page || null, chunk: doc.metadata.chunk || null}))] *)
Definition to_source (doc : Document) : Source :=
  mkSource (Js.prop (metadata doc) "source")
           (Js.or (Js.prop (metadata doc) "page") Js.JNull)
           (Js.or (Js.prop (metadata doc) "chunk") Js.JNull).

Definition role_name (r : Role) : string :=
  match r with
  | system => "system"
  | user => "user"
  | assistant => "assistant"
  end.

(** [chatHistory.map(msg => `${msg.role}: ${msg.content}`).join('\n')] *)
Definition formatHistory (chatHistory : list Message) : string :=
  Js.join nl (map (fun msg => role_name (role msg) +:+ ": " +:+ content msg) chatHistory).

(** [query(query, chatHistory = [])] *)
Definition query (query : string) (chatHistory : list Message) : M E QueryResult :=
  try_catch
    (let* _ := (fun w => if initialized w then (Ok true, w) else initialize w) in
     let formattedHistory := formatHistory chatHistory in
     let* response := chain_invoke (mkChainInput query formattedHistory) in
     let* docs := retrieve query in
     let sources := map to_source docs in
     ret (mkQueryResult response (Some sources) None None))
    (fun error =>
       let shouldEscalate := shouldEscalate error in
       ret (mkQueryResult apology None (Some (err_message error)) (Some shouldEscalate))).

End WithRuntime.
End LangChainService.

(** ** backend/controllers/chat.controller.js *)

Module ChatController.
Section WithRuntime.
Context {E : Type} {RT : Runtime E}.

(** [`conv-${Date.now()}-${Math.random().toString(36).substring(2, 7)}`] *)
Definition generateConversationId : M E string :=
  let* t := ask Date_now in
  let* r := ask random_suffix in
  ret ("conv-" +:+ pretty t +:+ "-" +:+ r).

Definition lowConfidenceIndicators : list string :=
  [ "I don't know";
    "I'm not sure";
    "I don't have enough information";
    "I cannot answer";
    "I'm unable to provide" ].

(** [shouldEscalate(text)] of the controller *)
Definition shouldEscalate (text : string) : bool :=
  Js.some (fun indicator =>
             Js.includes (Js.toLowerCase text) (Js.toLowerCase indicator))
          lowConfidenceIndicators.

(** [!conversationId || !conversations.has(conversationId)]; a missing
    argument is [None], and the empty string is falsy. *)
Definition unknownId (conversationId : option string)
    (conversations : gmap string Conversation) : bool :=
  match conversationId with
  | None => true
  | Some cid => String.eqb cid "" || negb (bool_decide (is_Some (conversations !! cid)))
  end.

Definition setConversation (cid : string) (c : Conversation) : M E unit :=
  fun w => (Ok tt, set_conversations (<[cid := c]> (conversations w)) w).

(** [conversation.messages.push(m)]: the object is the one the Map holds, so
    the Map sees the new message at once. *)
Definition pushMessage (cid : string) (c : Conversation) (m : Message) : M E Conversation :=
  let c' := mkConversation (conv_id c) (messages c ++ [m]) (createdAt c) in
  let* _ := setConversation cid c' in
  ret c'.

(** The first statement of [processMessage], which cannot throw: it yields
    the conversation ID the rest of the function (and its catch block)
    sees. *)
Definition ensureConversation (conversationId : option string) : M E string :=
  fun w =>
    if unknownId conversationId (conversations w) then
      (let* cid := generateConversationId in
       let* t_msg := now_iso in
       let* t_created := now_iso in
       let* _ := setConversation cid
         (mkConversation cid
            [mkMessage system "I am an AI assistant that helps with your documentation."
               None t_msg]
            t_created) in
       ret cid) w
    else (Ok (default "" conversationId), w).

(** [processMessage].  Here the text of a [query] result is a string and a
    thrown error has a message, so the [try] block below runs to its end;
    the catch block is kept as the source has it. *)
Definition processMessage (message : string) (conversationId : option string)
  : M E ChatResponse :=
  let* conversationId := ensureConversation conversationId in
  try_catch
    (let* conversation :=
       (fun w => match conversations w !! conversationId with
                 | Some c => (Ok c, w)
                 | None =>
                     (Throw (mkError "Cannot read properties of undefined (reading 'messages')" None), w)
                 end) in
     let* t_user := now_iso in
     let* conversation :=
       pushMessage conversationId conversation (mkMessage user message None t_user) in
     let chatHistory := drop 1 (messages conversation) in
     let* response := LangChainService.query message chatHistory in
     let escalate :=
       default false (qr_escalate response) || shouldEscalate (qr_text response) in
     let* t_assistant := now_iso in
     let* conversation :=
       pushMessage conversationId conversation
         (mkMessage assistant (qr_text response)
            (Some (default [] (qr_sources response))) t_assistant) in
     let* _ := setConversation conversationId conversation in
     let* t := now_iso in
     ret (mkChatResponse (qr_text response) (default [] (qr_sources response)) None
            conversationId escalate t))
    (fun error =>
       let* t := now_iso in
       ret (mkChatResponse
              "I'm sorry, I encountered an error while processing your request."
              [] (Some (err_message error)) conversationId true t)).

(** [getConversationHistory] *)
Definition getConversationHistory (conversationId : option string)
  : M E (option Conversation) :=
  fun w =>
    if unknownId conversationId (conversations w) then (Ok None, w)
    else (Ok (conversations w !! default "" conversationId), w).

(** [handleEscalation]; the notification branch only writes to the console,
    and the catch block logs and rethrows. *)
Definition handleEscalation (conversationId : option string) (reason : string)
  : M E Ticket :=
  try_catch
    (let* unknown := (fun w => (Ok (unknownId conversationId (conversations w)), w)) in
     if (unknown : bool) then throw (mkError "Invalid conversation ID" None)
     else
       let* t := ask Date_now in
       let* r := ask random_suffix in
       let escalationId := "esc-" +:+ pretty t +:+ "-" +:+ r in
       let* ts := now_iso in
       ret (mkTicket escalationId (default "" conversationId) reason pending ts))
    (fun error => throw error).

End WithRuntime.
End ChatController.

(** ** Vocabulary of the specification *)

(** [text] contains [phrase] case-insensitively as a substring: some
    substring of [text] differs from [phrase] in letter case only. *)
Definition contains_ci (text phrase : string) : Prop :=
  exists pre mid post,
    text = pre +:+ mid +:+ post /\ Js.toLowerCase mid = Js.toLowerCase phrase.

(** A citation of a chunk as the specification describes it: file name,
    page if present, chunk index. *)
Definition cite (doc : Document) : Source :=
  mkSource (Js.prop (metadata doc) "source")
           (default Js.JNull (metadata doc !! "page"))
           (Js.prop (metadata doc) "chunk").

(** The outcome of the first retrieval in a log: within one [query] that is
    the retrieval whose result is formatted into the prompt context. *)
Fixpoint context_retrieval (log : list Call) : option (result (list Document)) :=
  match log with
  | [] => None
  | CallRetrieve _ r :: _ => Some r
  | _ :: rest => context_retrieval rest
  end.

(** What C1 asks of the entries [new] that [query(q, [])] adds to the log:
    the condensation stage is not run, retrieval is asked [q] itself, and
    the only prompt sent to the inference server is the QA prompt for [q]. *)
Definition skips_condensation (q : string) (new : list Call) : Prop :=
  (forall p r, ~ In (CallCondense p r) new) /\
  (forall s rr, In (CallRetrieve s rr) new -> s = q) /\
  (forall p rc, In (CallCompletion p rc) new ->
     exists context, p = LangChainService.qaTemplate q context).

(** The error with which an ingestion stage (load, chunk, embed, upsert)
    failed, if the log entry is such a failure. *)
Definition stage_failure (c : Call) : option Error :=
  match c with
  | CallLoad _ _ (Throw e) | CallSplit _ (Throw e)
  | CallEmbeddings (Throw e) | CallUpsert _ (Throw e) => Some e
  | _ => None
  end.

Definition is_write (c : Call) : bool :=
  match c with CallWriteFile _ _ => true | _ => false end.
Definition is_upsert (c : Call) : bool :=
  match c with CallUpsert _ _ => true | _ => false end.
Definition is_completion (c : Call) : bool :=
  match c with CallCompletion _ _ => true | _ => false end.

(** The [i]-th chunk carries index [i]. *)
Definition chunk_indexed (docs : list Document) : Prop :=
  forall (i : nat) (d : Document),
    docs !! i = Some d -> metadata d !! "chunk" = Some (Js.JNum (Z.of_nat i)).

(** Store invariants: every key has the shape of a generated ID; every
    conversation starts with a system message. *)
Definition keys_generated (convs : gmap string Conversation) : Prop :=
  forall (cid : string) (c : Conversation),
    convs !! cid = Some c -> Js.startsWith cid "conv-" = true.

Definition starts_with_system (convs : gmap string Conversation) : Prop :=
  forall (cid : string) (c : Conversation),
    convs !! cid = Some c ->
    exists m rest, messages c = m :: rest /\ role m = system.

(** ** What one ingestion does, read off its log

    [ingestion_steps kind filePath new failure]: the entries [new] that one
    [processFile] adds to the log once the extension is accepted, and the
    error of the stage that failed, if one did.  The stages run in the order
    load, split, (embeddings, on first use in the service), upsert, manifest
    write, and the run stops at the first failure. *)

Definition embeddings_step (emb : list Call) : Prop :=
  emb = [] \/ emb = [CallEmbeddings (Ok tt)].

(** [pdocs] are the chunks [sd], in order, each with its index attached. *)
Definition indexed_copy (sd pdocs : list Document) : Prop :=
  map pageContent pdocs = map pageContent sd /\ chunk_indexed pdocs.

Definition ingestion_steps (kind : LoaderKind) (filePath : string)
    (new : list Call) (failure : option Error) : Prop :=
  (exists e, new = [CallLoad kind filePath (Throw e)] /\ failure = Some e)
  \/ (exists docs e,
        new = [CallLoad kind filePath (Ok docs); CallSplit docs (Throw e)] /\
        failure = Some e)
  \/ (exists docs sd e,
        new = [CallLoad kind filePath (Ok docs); CallSplit docs (Ok sd);
               CallEmbeddings (Throw e)] /\
        failure = Some e)
  \/ (exists docs sd emb pdocs e,
        new = [CallLoad kind filePath (Ok docs); CallSplit docs (Ok sd)]
              ++ emb ++ [CallUpsert pdocs (Throw e)] /\
        embeddings_step emb /\ indexed_copy sd pdocs /\ failure = Some e)
  \/ (exists docs sd emb pdocs name json,
        new = [CallLoad kind filePath (Ok docs); CallSplit docs (Ok sd)]
              ++ emb ++ [CallUpsert pdocs (Ok tt); CallWriteFile name json] /\
        embeddings_step emb /\ indexed_copy sd pdocs /\ failure = None).

(** ** What one [query] does, read off its log

    [query_runs q h w r new]: started in [w], the call returns [r] after
    adding the entries [new] to the log.  Either initialisation fails, or
    the output parser of the condensation stage throws, or the chain runs to
    its end and the sources are retrieved. *)

Section QueryRuns.
Context {E : Type} {RT : Runtime E}.

(** The result built by the catch block of [query]. *)
Definition catch_result (e : Error) : QueryResult :=
  mkQueryResult LangChainService.apology None (Some (err_message e))
    (Some (LangChainService.shouldEscalate e)).

(** What [retrieveDocuments] makes of a retrieval outcome. *)
Definition context_of (rr : result (list Document)) : string :=
  match rr with
  | Ok docs => LangChainService.formatDocumentsAsString docs
  | Throw _ => ""
  end.

(** What [callLlamaServer] makes of a completion outcome. *)
Definition answer_of (rc : result string) : string :=
  match rc with
  | Ok s => s
  | Throw _ => LangChainService.apology
  end.

(** The prompt the condensation stage renders for [query(q, h)]. *)
Definition condensation_prompt (q : string) (h : list Message) : string :=
  LangChainService.questionGeneratorTemplate ""
    (interpolate_object (mkChainInput q (LangChainService.formatHistory h))).

Definition query_runs (q : string) (h : list Message) (w : World E)
    (r : QueryResult) (new : list Call) : Prop :=
  let P := condensation_prompt q h in
  (exists e, initialized w = false /\ new = [] /\ r = catch_result e)
  \/ (exists e, StringOutputParser_invoke P = Throw e /\
                new = [CallCondense P (Throw e)] /\ r = catch_result e)
  \/ (exists s rr rc rs,
        StringOutputParser_invoke P = Ok s /\
        new = [ CallCondense P (Ok s);
                CallRetrieve s rr;
                CallCompletion (LangChainService.qaTemplate s (context_of rr)) rc;
                CallRetrieve q rs ] /\
        r = match rs with
            | Ok docs =>
                mkQueryResult (answer_of rc)
                  (Some (map LangChainService.to_source docs)) None None
            | Throw e => catch_result e
            end).

End QueryRuns.

(** ** A concrete runtime for running the model on examples *)

Module Sample.

(** What follows the last occurrence of [c] in [s]. *)
Fixpoint after_last (c : ascii) (s : string) : option string :=
  match s with
  | EmptyString => None
  | String a s' =>
      match after_last c s' with
      | Some r => Some r
      | None => if decide (a = c) then Some s' else None
      end
  end.

(** [s] without the suffix [suf], when it has it. *)
Fixpoint strip_suffix (suf s : string) : option string :=
  if decide (s = suf) then Some ""
  else match s with
       | EmptyString => None
       | String a s' => String a <$> strip_suffix suf s'
       end.

Definition path_basename (p : string) (ext : option string) : string :=
  let b := default p (after_last "/" p) in
  match ext with
  | None => b
  | Some e => match strip_suffix e b with
              | Some stem => if decide (stem = "") then b else stem
              | None => b
              end
  end.

Definition path_extname (p : string) : string :=
  match path_basename p None with
  | EmptyString => ""
  | String _ b' => match after_last "." b' with
                   | Some r => "." +:+ r
                   | None => ""
                   end
  end.

(** Canned answers of the external services. *)
Record Stubs : Type := mkStubs {
  stub_suffix : string;
  stub_load : result (list Document);
  stub_split : list Document -> result (list Document);
  stub_embeddings : result unit;
  stub_upsert : result unit;
  stub_retrieve : string -> result (list Document);
  stub_completion : string -> result string;
}.

(** The external state is the clock, in milliseconds; every reading
    advances it by one.  Templates render an object as [[object Object]],
    and the output parser returns the rendered prompt. *)
Definition runtime (s : Stubs) : Runtime Z := {|
  extname := path_extname;
  basename := path_basename;
  Date_now := fun t => (t, t + 1);
  toISOString := pretty;
  random_suffix := fun t => (stub_suffix s, t);
  loader_load := fun _ _ t => (stub_load s, t);
  splitDocuments := fun docs t => (stub_split s docs, t);
  new_embeddings := fun t => (stub_embeddings s, t);
  Chroma_fromDocuments := fun _ t => (stub_upsert s, t);
  langchain_setup := fun t => (Ok tt, t);
  getRelevantDocuments := fun q t => (stub_retrieve s q, t);
  axios_post_completion := fun p t => (stub_completion s p, t);
  interpolate_object := fun _ => "[object Object]";
  StringOutputParser_invoke := Ok;
|}.

(** A freshly started process at clock reading [t]. *)
Definition boot (t : Z) : World Z := mkWorld t [] false false ∅ ∅.

Definition doc (text fileName : string) (chunk : Z) : Document :=
  mkDocument text (<["source" := Js.JStr fileName]> (<["chunk" := Js.JNum chunk]> ∅)).

Definition refunds : Document := doc "Refunds are issued within 30 days." "policy.txt" 0.
Definition shipping : Document := doc "Orders ship within 2 days." "shipping.md" 3.

Definition refund_question : string := "What is the refund policy?".

(** Services that all answer. *)
Definition healthy : Stubs :=
  mkStubs "k3x9q" (Ok [mkDocument "Refunds are issued within 30 days. Orders ship within 2 days." ∅])
    (fun _ => Ok [mkDocument "Refunds are issued within 30 days." ∅;
                  mkDocument "Orders ship within 2 days." ∅])
    (Ok tt) (Ok tt)
    (fun q => if decide (q = refund_question) then Ok [refunds] else Ok [shipping])
    (fun _ => Ok "Refunds are issued within 30 days.").

(** The llama.cpp server refuses the connection. *)
Definition llama_down : Stubs :=
  mkStubs "k3x9q" (stub_load healthy) (stub_split healthy) (Ok tt) (Ok tt)
    (stub_retrieve healthy)
    (fun _ => Throw (mkError "connect ECONNREFUSED 127.0.0.1:8080" (Some "ECONNREFUSED"))).

(** Chroma rejects the upsert. *)
Definition chroma_down : Stubs :=
  mkStubs "k3x9q" (stub_load healthy) (stub_split healthy) (Ok tt)
    (Throw (mkError "connect ECONNREFUSED 127.0.0.1:8000" (Some "ECONNREFUSED")))
    (stub_retrieve healthy) (stub_completion healthy).

(** The model answers that it does not know. *)
Definition unsure : Stubs :=
  mkStubs "k3x9q" (stub_load healthy) (stub_split healthy) (Ok tt) (Ok tt)
    (stub_retrieve healthy)
    (fun _ => Ok "Sorry, I DON'T KNOW the answer to that.").

End Sample.

(** ** backend/services/processor.js: the manifests

    The files of data/processed are those the code wrote, so reading one
    back always parses. *)

Module ProcessorDocs.
Section WithRuntime.
Context {E : Type} {RT : Runtime E}.

(** [new Chroma(...)] followed by [client.delete({ where: { source } })] *)
Variable Chroma_delete_where_source : string -> E -> result unit * E.

(** The manifest file of a document ID:
    [`${path.basename(id, path.extname(id))}.json`] *)
Definition metaFile (id : string) : string :=
  basename id (Some (extname id)) +:+ ".json".

(** [getDocumentDetails(id)]: [None] is [null]. *)
Definition getDocumentDetails (id : string) : M E (option ManifestJson) :=
  fun w => (Ok (processedDir w !! metaFile id), w).


End WithRuntime.
End ProcessorDocs.

(** ** The upload route: the name a file is stored under *)

Module Upload.

(** The characters the pattern [[^a-zA-Z0-9._-]] leaves alone. *)
Definition safe_char (c : ascii) : bool :=
  let n := nat_of_ascii c in
  ((97 <=? n)%nat && (n <=? 122)%nat)
  || ((65 <=? n)%nat && (n <=? 90)%nat)
  || ((48 <=? n)%nat && (n <=? 57)%nat)
  || (n =? 46)%nat || (n =? 95)%nat || (n =? 45)%nat.

(** [file.originalname.replace(/[^a-zA-Z0-9._-]/g, '_')] *)
Fixpoint safeName (originalname : string) : string :=
  match originalname with
  | EmptyString => EmptyString
  | String c rest => String (if safe_char c then c else "_"%char) (safeName rest)
  end.

(** [`${timestamp}_${safeName}`] *)
Definition storedName (timestamp : Z) (originalname : string) : string :=
  pretty timestamp +:+ "_" +:+ safeName originalname.

End Upload.

(** ** backend/routes/chat.js: the handlers that call the controller

    A handler is given the fields it reads from the request ([None] for a
    field that is absent) and yields the status and the JSON body it
    sends. *)

Module ChatRoutes.
Section WithRuntime.
Context {E : Type} {RT : Runtime E}.

Inductive Json : Type :=
| JsonError (error : string)
| JsonChat (response : ChatResponse)
| JsonConversation (convo : Conversation)
| JsonTicket (escalation : Ticket).

Record HttpResponse : Type := mkHttpResponse {
  http_status : nat;
  http_body : Json;
}.

(** [!x] for a request field: absent, or the empty string. *)
Definition missing (x : option string) : bool :=
  match x with
  | None => true
  | Some s => String.eqb s ""
  end.

(** [router.post('/message', ...)] *)
Definition postMessage (message conversationId : option string) : M E HttpResponse :=
  try_catch
    (if missing message then
       ret (mkHttpResponse 400 (JsonError "Message is required"))
     else
       let* response :=
         ChatController.processMessage (default "" message) conversationId in
       ret (mkHttpResponse 200 (JsonChat response)))
    (fun error => ret (mkHttpResponse 500 (JsonError "Failed to process message"))).

(** [router.get('/history/:conversationId', ...)] *)
Definition getHistory (conversationId : option string) : M E HttpResponse :=
  try_catch
    (if missing conversationId then
       ret (mkHttpResponse 400 (JsonError "Conversation ID is required"))
     else
       let* convo := ChatController.getConversationHistory conversationId in
       match convo with
       | None => ret (mkHttpResponse 404 (JsonError "Conversation not found"))
       | Some c => ret (mkHttpResponse 200 (JsonConversation c))
       end)
    (fun error => ret (mkHttpResponse 500 (JsonError "Failed to retrieve chat history"))).

(** [router.post('/escalate', ...)] *)
Definition postEscalate (conversationId reason : option string) : M E HttpResponse :=
  try_catch
    (if missing conversationId then
       ret (mkHttpResponse 400 (JsonError "Conversation ID is required"))
     else
       let* escalation :=
         ChatController.handleEscalation conversationId
           (if missing reason then "User requested assistance" else default "" reason) in
       ret (mkHttpResponse 200 (JsonTicket escalation)))
    (fun error => ret (mkHttpResponse 500 (JsonError "Failed to escalate conversation"))).

End WithRuntime.
End ChatRoutes.

(** ** More canned services *)

Module SampleMore.

(** The vector store answers the raw question only; any other query is
    refused. *)
Definition flaky_retriever : Sample.Stubs :=
  Sample.mkStubs "k3x9q" (Sample.stub_load Sample.healthy)
    (Sample.stub_split Sample.healthy) (Ok tt) (Ok tt)
    (fun q => if decide (q = Sample.refund_question) then Ok [Sample.refunds]
              else Throw (mkError "connect ECONNREFUSED 127.0.0.1:8000"
                            (Some "ECONNREFUSED")))
    (Sample.stub_completion Sample.healthy).

End SampleMore.

(** ** Facts about the string primitives *)

Lemma toLowerCase_app (a b : string) :
  Js.toLowerCase (a +:+ b) = Js.toLowerCase a +:+ Js.toLowerCase b.
Proof.
  induction a as [|c a IH]; simpl; [reflexivity|]. now rewrite IH.
Qed.

Lemma toLowerCase_idem (s : string) :
  Js.toLowerCase (Js.toLowerCase s) = Js.toLowerCase s.
Proof.
  induction s as [|c s IH]; simpl; [reflexivity|].
  rewrite IH. f_equal.
  destruct c as [[] [] [] [] [] [] [] []]; reflexivity.
Qed.

Lemma startsWith_app (p t : string) : Js.startsWith (p +:+ t) p = true.
Proof.
  induction p as [|c p IH]; simpl; [reflexivity|].
  destruct (decide (c = c)); [exact IH | congruence].
Qed.

Lemma startsWith_inv (s p : string) :
  Js.startsWith s p = true -> exists t, s = p +:+ t.
Proof.
  revert s. induction p as [|c p IH]; intros s H.
  - exists s. reflexivity.
  - destruct s as [|b s]; simpl in H; [discriminate|].
    destruct (decide (c = b)) as [->|]; [|discriminate].
    destruct (IH _ H) as [t ->]. exists t. reflexivity.
Qed.

Lemma includes_app (pre sub post : string) :
  Js.includes (pre +:+ sub +:+ post) sub = true.
Proof.
  induction pre as [|c pre IH].
  - simpl. destruct (sub +:+ post) eqn:E; simpl;
      rewrite <- ?E, startsWith_app; reflexivity.
  - change (Js.includes (String c (pre +:+ sub +:+ post)) sub = true).
    simpl. rewrite IH. apply orb_true_r.
Qed.

Lemma includes_inv (s sub : string) :
  Js.includes s sub = true -> exists pre post, s = pre +:+ sub +:+ post.
Proof.
  induction s as [|c s IH]; simpl; intros H.
  - rewrite orb_false_r in H. apply startsWith_inv in H as [t Ht].
    exists "", t. exact Ht.
  - apply orb_true_iff in H as [H|H].
    + apply startsWith_inv in H as [t Ht]. exists "", t. exact Ht.
    + destruct (IH H) as (pre & post & ->). exists (String c pre), post.
      reflexivity.
Qed.

(** ** The monad and the log *)

Section MonadFacts.
Context {E : Type} {RT : Runtime E}.

Lemma calls_add_call (c : Call) (w : World E) : calls (add_call c w) = calls w ++ [c].
Proof. reflexivity. Qed.

Lemma now_iso_run (w : World E) :
  exists t e', Date_now (ext w) = (t, e') /\
               now_iso w = (Ok (toISOString t), set_ext e' w).
Proof.
  unfold now_iso, bind, ask, ret.
  destruct (Date_now (ext w)) as [t e']. eauto.
Qed.

Lemma bind_ok {A B} (m : M E A) (k : A -> M E B) (w w1 : World E) (a : A) :
  m w = (Ok a, w1) -> bind m k w = k a w1.
Proof. unfold bind. now intros ->. Qed.

Lemma bind_throw {A B} (m : M E A) (k : A -> M E B) (w w1 : World E) (e : Error) :
  m w = (Throw e, w1) -> bind m k w = (Throw e, w1).
Proof. unfold bind. now intros ->. Qed.

Lemma extends_refl (w : World E) : extends w w [].
Proof. unfold extends. rewrite app_nil_r. auto. Qed.

Lemma extends_trans (w w1 w2 : World E) (n1 n2 : list Call) :
  extends w w1 n1 -> extends w1 w2 n2 -> extends w w2 (n1 ++ n2).
Proof.
  unfold extends. intros (Hc1 & Hv1 & Hp1) (Hc2 & Hv2 & Hp2).
  rewrite Hc2, Hc1, Hv2, Hv1, Hp2, Hp1, app_assoc. auto.
Qed.

Lemma extends_set_ext (w : World E) (e : E) : extends w (set_ext e w) [].
Proof. unfold extends. cbn. rewrite app_nil_r. auto. Qed.

Lemma extends_set_initialized (w : World E) (b : bool) :
  extends w (set_initialized b w) [].
Proof. unfold extends. cbn. rewrite app_nil_r. auto. Qed.

Lemma traced_run {A} (f : E -> result A * E) (entry : result A -> Call) (w : World E) :
  exists r w', f (ext w) = (r, ext w') /\ traced f entry w = (r, w') /\
               extends w w' [entry r] /\ initialized w' = initialized w /\
               embeddingsInstance w' = embeddingsInstance w.
Proof.
  unfold traced. destruct (f (ext w)) as [r e'].
  exists r, (add_call (entry r) (set_ext e' w)). unfold extends. cbn. auto 6.
Qed.

Lemma now_iso_extends (w : World E) :
  exists t w', now_iso w = (Ok t, w') /\ extends w w' [] /\
               initialized w' = initialized w.
Proof.
  destruct (now_iso_run w) as (t & e' & _ & ->).
  eexists _, _. split; [reflexivity|]. split; [apply extends_set_ext | reflexivity].
Qed.

End MonadFacts.

Create HintDb world.
#[local] Hint Resolve extends_refl extends_trans extends_set_ext
  extends_set_initialized : world.

Ltac unfold_monad :=
  unfold now_iso, bind, try_catch, ret, throw, ask, call, log in *.

(** ** The LangChain service *)

Section QueryFacts.
Context {E : Type} {RT : Runtime E}.

Lemma retrieveDocuments_run (q : string) (w : World E) :
  exists rr w',
    LangChainService.retrieveDocuments q w = (Ok (context_of rr), w') /\
    extends w w' [CallRetrieve q rr] /\ initialized w' = initialized w.
Proof.
  unfold LangChainService.retrieveDocuments, LangChainService.retrieve.
  unfold_monad.
  destruct (traced_run (getRelevantDocuments q) (CallRetrieve q) w)
    as (rr & w' & _ & -> & Hext & Hi & _).
  exists rr, w'. destruct rr; auto.
Qed.

Lemma callLlamaServer_run (prompt : string) (w : World E) :
  exists rc w',
    LangChainService.callLlamaServer prompt w = (Ok (answer_of rc), w') /\
    extends w w' [CallCompletion prompt rc] /\ initialized w' = initialized w.
Proof.
  unfold LangChainService.callLlamaServer. unfold_monad.
  destruct (traced_run (axios_post_completion prompt) (CallCompletion prompt) w)
    as (rc & w' & _ & -> & Hext & Hi & _).
  exists rc, w'. destruct rc; auto.
Qed.

(** The chain: the condensation stage always runs; when its parser throws the
    chain stops there, otherwise retrieval and one completion follow. *)
Lemma chain_invoke_run (q hist : string) (w : World E) :
  let P := LangChainService.questionGeneratorTemplate ""
             (interpolate_object (mkChainInput q hist)) in
  (exists e w',
      StringOutputParser_invoke P = Throw e /\
      LangChainService.chain_invoke (mkChainInput q hist) w = (Throw e, w') /\
      extends w w' [CallCondense P (Throw e)])
  \/ (exists s rr rc w',
        StringOutputParser_invoke P = Ok s /\
        LangChainService.chain_invoke (mkChainInput q hist) w = (Ok (answer_of rc), w') /\
        extends w w' [ CallCondense P (Ok s); CallRetrieve s rr;
                       CallCompletion (LangChainService.qaTemplate s (context_of rr)) rc ]).
Proof.
  intros P.
  unfold LangChainService.chain_invoke, LangChainService.stage2,
    LangChainService.stage1, LangChainService.stage3, LangChainService.stage4.
  fold P. unfold_monad.
  destruct (traced_run (fun e => (StringOutputParser_invoke P, e)) (CallCondense P) w)
    as (rp & w1 & Hp & -> & Hext1 & _).
  injection Hp as Hp. subst rp.
  destruct (StringOutputParser_invoke P) as [s|e] eqn:HP.
  - right.
    destruct (retrieveDocuments_run s w1) as (rr & w2 & -> & Hext2 & _).
    destruct (callLlamaServer_run (LangChainService.qaTemplate s (context_of rr)) w2)
      as (rc & w3 & -> & Hext3 & _).
    exists s, rr, rc, w3. split; [reflexivity|]. split; [reflexivity|].
    apply (extends_trans _ _ _ _ _ Hext1 (extends_trans _ _ _ _ _ Hext2 Hext3)).
  - left. exists e, w1. auto.
Qed.

(** [query] always returns; its result and its log entries are those of
    [query_runs], and it touches neither the conversations nor the
    manifests. *)
Lemma query_spec (q : string) (h : list Message) (w : World E) :
  exists r w' new,
    LangChainService.query q h w = (Ok r, w') /\
    extends w w' new /\
    query_runs q h w r new.
Proof.
  unfold LangChainService.query, query_runs, condensation_prompt.
  set (hist := LangChainService.formatHistory h).
  set (P := LangChainService.questionGeneratorTemplate "" _).
  assert (Hinit :
    (exists e w1, (if initialized w then (Ok true, w)
                   else LangChainService.initialize w) = (Throw e, w1) /\
                  initialized w = false /\ extends w w1 [])
    \/ (exists w1, (if initialized w then (Ok true, w)
                    else LangChainService.initialize w) = (Ok true, w1) /\
                   extends w w1 [])).
  { destruct (initialized w) eqn:Hi.
    - right. exists w. auto with world.
    - unfold LangChainService.initialize. unfold_monad.
      destruct (langchain_setup (ext w)) as [[[]|e] e'].
      + right. eexists. split; [reflexivity|].
        unfold extends; cbn. rewrite app_nil_r. auto.
      + left. eexists _, _. split; [reflexivity|]. split; [reflexivity|].
        unfold extends; cbn. rewrite app_nil_r. auto. }
  unfold try_catch at 1. unfold bind at 1.
  destruct Hinit as [(e & w1 & -> & Hi & Hext0) | (w1 & -> & Hext0)].
  - exists (catch_result e), w1, []. split; [reflexivity|]. split; [assumption|].
    left. exists e. auto.
  - unfold bind at 1.
    destruct (chain_invoke_run q hist w1)
      as [(e & w2 & HP & -> & Hext1) | (s & rr & rc & w2 & HP & -> & Hext1)].
    + exists (catch_result e), w2, [CallCondense P (Throw e)].
      split; [reflexivity|].
      split; [apply (extends_trans _ _ _ _ _ Hext0 Hext1)|].
      right; left. exists e. auto.
    + unfold LangChainService.retrieve. unfold bind, ret.
      destruct (traced_run (getRelevantDocuments q) (CallRetrieve q) w2)
        as (rs & w3 & _ & -> & Hext2 & _).
      pose proof (extends_trans _ _ _ _ _ Hext0
                    (extends_trans _ _ _ _ _ Hext1 Hext2)) as Hext.
      destruct rs as [docs|e].
      * eexists _, w3, _. split; [reflexivity|]. split; [exact Hext|].
        right; right. exists s, (rr), rc, (Ok docs). auto.
      * eexists _, w3, _. split; [reflexivity|]. split; [exact Hext|].
        right; right. exists s, rr, rc, (Throw e). auto.
Qed.

(** The three ways a [query] can go, with what each adds to the log: the
    log stays as it was only when [initialize] is run and its setup throws;
    on every other path the condensation stage is logged first. *)
Lemma query_log_shapes (q : string) (h : list Message) (w : World E) :
  exists r w' new,
    LangChainService.query q h w = (Ok r, w') /\
    calls w' = calls w ++ new /\
    let P := condensation_prompt q h in
    ((exists e e',
         initialized w = false /\ langchain_setup (ext w) = (Throw e, e') /\
         new = [] /\ r = catch_result e)
     \/ (exists e, StringOutputParser_invoke P = Throw e /\
                   new = [CallCondense P (Throw e)] /\ r = catch_result e)
     \/ (exists s rr rc rs,
           StringOutputParser_invoke P = Ok s /\
           new = [ CallCondense P (Ok s);
                   CallRetrieve s rr;
                   CallCompletion (LangChainService.qaTemplate s (context_of rr)) rc;
                   CallRetrieve q rs ])).
Proof.
  unfold LangChainService.query, condensation_prompt.
  set (hist := LangChainService.formatHistory h).
  set (P := LangChainService.questionGeneratorTemplate "" _).
  assert (Hinit :
    (exists e e' w1, (if initialized w then (Ok true, w)
                      else LangChainService.initialize w) = (Throw e, w1) /\
                     initialized w = false /\
                     langchain_setup (ext w) = (Throw e, e') /\ extends w w1 [])
    \/ (exists w1, (if initialized w then (Ok true, w)
                    else LangChainService.initialize w) = (Ok true, w1) /\
                   extends w w1 [])).
  { destruct (initialized w) eqn:Hi.
    - right. exists w. split; [reflexivity | apply extends_refl].
    - unfold LangChainService.initialize. unfold_monad.
      destruct (langchain_setup (ext w)) as [[[]|e] e'].
      + right. eexists. split; [reflexivity|].
        unfold extends; cbn. rewrite app_nil_r. auto.
      + left. eexists e, e', _. split; [reflexivity|]. split; [reflexivity|].
        split; [reflexivity|].
        unfold extends; cbn. rewrite app_nil_r. auto. }
  unfold try_catch at 1. unfold bind at 1.
  destruct Hinit as [(e & e' & w1 & -> & Hi & Hs & Hext0) | (w1 & -> & Hext0)].
  - exists (catch_result e), w1, []. split; [reflexivity|].
    split; [apply Hext0|]. left. exists e, e'. auto.
  - unfold bind at 1.
    destruct (chain_invoke_run q hist w1)
      as [(e & w2 & HP & -> & Hext1) | (s & rr & rc & w2 & HP & -> & Hext1)].
    + exists (catch_result e), w2, [CallCondense P (Throw e)].
      split; [reflexivity|].
      split; [apply (extends_trans _ _ _ _ _ Hext0 Hext1)|].
      right; left. exists e. auto.
    + unfold LangChainService.retrieve. unfold bind, ret.
      destruct (traced_run (getRelevantDocuments q) (CallRetrieve q) w2)
        as (rs & w3 & _ & -> & Hext2 & _).
      pose proof (extends_trans _ _ _ _ _ Hext0
                    (extends_trans _ _ _ _ _ Hext1 Hext2)) as Hext.
      destruct rs as [docs|e].
      * eexists _, w3, _. split; [reflexivity|]. split; [apply Hext|].
        right; right. exists s, rr, rc, (Ok docs). auto.
      * eexists _, w3, _. split; [reflexivity|]. split; [apply Hext|].
        right; right. exists s, rr, rc, (Throw e). auto.
Qed.

End QueryFacts.

(** *** Claims about the LangChain service *)

Section QueryClaims.
Context {E : Type} {RT : Runtime E}.

(** C1, as amended.  With an empty history, [query] makes no condensation
    call to the inference server, but it does not skip the condensation
    stage of the chain either, for the chain has no branch on the history.
    Unless [initialize] has to run and throws (then nothing is called), the
    stage comes first; if its output parser throws, nothing else is called;
    otherwise its output, not [q], is the question sent to the chain's
    retrieval and placed in the QA prompt, that prompt is the only one sent
    to the inference server, and [q] itself is used for the retrieval that
    follows, the one that builds the sources. *)
Theorem query_condensation_unconditional (q : string) (w : World E) :
  exists r w' new,
    LangChainService.query q [] w = (Ok r, w') /\
    calls w' = calls w ++ new /\
    let P := condensation_prompt q [] in
    ((exists e e',
         initialized w = false /\ langchain_setup (ext w) = (Throw e, e') /\
         new = [] /\ r = catch_result e)
     \/ (exists e, StringOutputParser_invoke P = Throw e /\
                   new = [CallCondense P (Throw e)] /\ r = catch_result e)
     \/ (exists s rr rc rs,
           StringOutputParser_invoke P = Ok s /\
           new = [ CallCondense P (Ok s);
                   CallRetrieve s rr;
                   CallCompletion (LangChainService.qaTemplate s (context_of rr)) rc;
                   CallRetrieve q rs ])).
Proof. exact (query_log_shapes q [] w). Qed.

(** C2, what the code does.  When the call to the inference server throws,
    [callLlamaServer] turns the error into the apology text and the chain
    goes on as if the model had answered: [query] returns the apology, and
    its [escalate] field is absent, unless the retrieval of the sources
    fails as well, in which case it is whatever [shouldEscalate] says of that
    second error. *)
Theorem inference_failure_not_escalated (q : string) (h : list Message)
    (w w' : World E) (r : QueryResult) (new : list Call) (p : string) (e : Error) :
  LangChainService.query q h w = (Ok r, w') ->
  calls w' = calls w ++ new ->
  In (CallCompletion p (Throw e)) new ->
  qr_text r = LangChainService.apology /\
  (qr_escalate r = None
   \/ exists e', In (CallRetrieve q (Throw e')) new /\
                 qr_escalate r = Some (LangChainService.shouldEscalate e')).
Proof.
  intros Hrun Hcalls Hin.
  destruct (query_spec q h w) as (r0 & w0 & new0 & Hrun0 & (Hcalls0 & _) & Hruns).
  rewrite Hrun in Hrun0. injection Hrun0 as <- <-.
  rewrite Hcalls in Hcalls0. apply app_inv_head in Hcalls0. subst new0.
  destruct Hruns as [(e0 & Hi & -> & _) | [(e0 & HP & -> & _) |
                     (s & rr & rc & rs & HP & -> & ->)]].
  - destruct Hin.
  - destruct Hin as [Hin|[]]. discriminate.
  - assert (rc = Throw e) as ->.
    { cbn in Hin. destruct Hin as [H|[H|[H|[H|[]]]]]; try discriminate.
      now injection H. }
    destruct rs as [docs|e'].
    + split; [reflexivity | left; reflexivity].
    + split; [reflexivity|]. right. exists e'.
      split; [do 3 right; left; reflexivity | reflexivity].
Qed.

(** C4, as amended.  A [query] that succeeds takes its sources from a second
    retrieval, made with the raw query after the chain has answered, not from
    the retrieval that filled the prompt context: one source per chunk of
    that second result, in the order returned, built by [to_source], whatever
    the model text says. *)
Theorem sources_from_second_retrieval (q : string) (h : list Message)
    (w w' : World E) (r : QueryResult) :
  LangChainService.query q h w = (Ok r, w') ->
  qr_error r = None ->
  exists s rr rc docs,
    calls w' = calls w ++
      [ CallCondense (condensation_prompt q h) (Ok s);
        CallRetrieve s rr;
        CallCompletion (LangChainService.qaTemplate s (context_of rr)) rc;
        CallRetrieve q (Ok docs) ] /\
    qr_text r = answer_of rc /\
    qr_sources r = Some (map LangChainService.to_source docs).
Proof.
  intros Hrun Herr.
  destruct (query_spec q h w) as (r0 & w0 & new & Hrun0 & (Hcalls & _) & Hruns).
  rewrite Hrun in Hrun0. injection Hrun0 as <- <-.
  destruct Hruns as [(e0 & Hi & -> & ->) | [(e0 & HP & -> & ->) |
                     (s & rr & rc & rs & HP & -> & ->)]]; try discriminate.
  destruct rs as [docs|e']; [|discriminate].
  exists s, rr, rc, docs. auto.
Qed.

(** C10.  The sources [query] returns are [to_source] of the chunks of its
    last retrieval, position by position; a chunk whose [chunk] (or [page])
    metadata is 0 is reported with [null] in that field, and a non-zero
    number is reported unchanged. *)
Theorem source_falsy_fields_null (q : string) (h : list Message)
    (w w' : World E) (r : QueryResult) (srcs : list Source) :
  LangChainService.query q h w = (Ok r, w') ->
  qr_sources r = Some srcs ->
  exists docs,
    last (calls w') = Some (CallRetrieve q (Ok docs)) /\
    length srcs = length docs /\
    forall (i : nat) (d : Document) (s : Source),
      docs !! i = Some d -> srcs !! i = Some s ->
      source s = Js.prop (metadata d) "source" /\
      (Js.prop (metadata d) "chunk" = Js.JNum 0 -> chunk s = Js.JNull) /\
      (Js.prop (metadata d) "page" = Js.JNum 0 -> page s = Js.JNull) /\
      (forall n, n <> 0 -> Js.prop (metadata d) "chunk" = Js.JNum n ->
                 chunk s = Js.JNum n) /\
      (forall n, n <> 0 -> Js.prop (metadata d) "page" = Js.JNum n ->
                 page s = Js.JNum n).
Proof.
  intros Hrun Hsrc.
  destruct (query_spec q h w) as (r0 & w0 & new & Hrun0 & (Hcalls & _) & Hruns).
  rewrite Hrun in Hrun0. injection Hrun0 as <- <-.
  destruct Hruns as [(e0 & Hi & -> & ->) | [(e0 & HP & -> & ->) |
                     (s & rr & rc & rs & HP & -> & ->)]]; try discriminate.
  destruct rs as [docs|e']; [|discriminate].
  cbn in Hsrc. injection Hsrc as <-.
  exists docs. split; [|split].
  - rewrite Hcalls.
    change [CallCondense ?a ?b; ?c; ?d; ?x] with ([CallCondense a b; c; d] ++ [x]).
    rewrite app_assoc. apply last_snoc.
  - apply length_map.
  - intros i d src Hd Hs.
    change (map LangChainService.to_source docs)
      with (LangChainService.to_source <$> docs) in Hs.
    rewrite list_lookup_fmap, Hd in Hs. injection Hs as <-.
    unfold LangChainService.to_source, Js.or. cbn.
    split; [reflexivity|].
    split; [intros ->; reflexivity|].
    split; [intros ->; reflexivity|].
    split; intros n Hn ->; cbn; destruct (Z.eqb_spec n 0); [lia|reflexivity|lia|reflexivity].
Qed.

End QueryClaims.

(** *** The claims on the sample runtime *)

(** C1, as stated, fails: with an empty history the question sent to the
    chain's retrieval is the rendered condensation prompt, not the question
    asked. *)
Lemma query_empty_history_condenses :
  ~ skips_condensation Sample.refund_question
      (calls (snd (LangChainService.query (RT := Sample.runtime Sample.healthy)
                     Sample.refund_question [] (Sample.boot 1700000000000)))).
Proof.
  intros (_ & Hretrieve & _).
  specialize (Hretrieve
    (condensation_prompt (RT := Sample.runtime Sample.healthy) Sample.refund_question [])
    (Ok [Sample.shipping])).
  assert (Hq : condensation_prompt (RT := Sample.runtime Sample.healthy)
                 Sample.refund_question [] = Sample.refund_question).
  { apply Hretrieve. vm_compute. right; left. reflexivity. }
  vm_compute in Hq. discriminate Hq.
Qed.

(** The llama.cpp server refuses the connection: [query] answers with the
    apology, cites the sources, and has no [escalate] field. *)
Lemma inference_failure_not_escalated_witness :
  let run := LangChainService.query (RT := Sample.runtime Sample.llama_down)
               Sample.refund_question [] (Sample.boot 1700000000000) in
  exists r,
    fst run = Ok r /\
    In (CallCompletion
          (LangChainService.qaTemplate
             (condensation_prompt (RT := Sample.runtime Sample.llama_down)
                Sample.refund_question [])
             "Orders ship within 2 days.")
          (Throw (mkError "connect ECONNREFUSED 127.0.0.1:8080" (Some "ECONNREFUSED"))))
       (calls (snd run)) /\
    qr_text r = LangChainService.apology /\
    qr_sources r = Some [mkSource (Js.JStr "policy.txt") Js.JNull Js.JNull] /\
    qr_escalate r = None.
Proof.
  intros run.
  exists (mkQueryResult LangChainService.apology
            (Some [mkSource (Js.JStr "policy.txt") Js.JNull Js.JNull]) None None).
  assert (Hrun : run = (Ok (mkQueryResult LangChainService.apology
            (Some [mkSource (Js.JStr "policy.txt") Js.JNull Js.JNull]) None None),
                        snd run)) by (vm_compute; reflexivity).
  assert (Hin : In (CallCompletion
          (LangChainService.qaTemplate
             (condensation_prompt (RT := Sample.runtime Sample.llama_down)
                Sample.refund_question [])
             "Orders ship within 2 days.")
          (Throw (mkError "connect ECONNREFUSED 127.0.0.1:8080" (Some "ECONNREFUSED"))))
       (calls (snd run))) by (vm_compute; do 2 right; left; reflexivity).
  split; [vm_compute; reflexivity|]. split; [exact Hin|].
  split; [|split; reflexivity].
  exact (proj1 (inference_failure_not_escalated
                  (RT := Sample.runtime Sample.llama_down)
                  Sample.refund_question [] (Sample.boot 1700000000000) (snd run) _
                  (calls (snd run)) _ _ Hrun eq_refl Hin)).
Defined.

(** C4, as stated, fails: the context was built from the chunk of
    shipping.md that the chain's retrieval returned, while the sources list
    the chunk of policy.txt returned by the second retrieval (and report its
    chunk index 0 as [null]). *)
Lemma sources_not_context_chunks :
  let run := LangChainService.query (RT := Sample.runtime Sample.healthy)
               Sample.refund_question [] (Sample.boot 1700000000000) in
  exists qr docs,
    fst run = Ok qr /\ qr_error qr = None /\
    context_retrieval (calls (snd run)) = Some (Ok docs) /\
    qr_sources qr <> Some (map cite docs).
Proof.
  intros run.
  exists (mkQueryResult "Refunds are issued within 30 days."
            (Some [mkSource (Js.JStr "policy.txt") Js.JNull Js.JNull]) None None),
         [Sample.shipping].
  split; [vm_compute; reflexivity|]. split; [reflexivity|].
  split; [vm_compute; reflexivity|].
  vm_compute. discriminate.
Qed.

(** On the sample corpus the sources are those of the second retrieval. *)
Lemma sources_from_second_retrieval_witness :
  exists docs,
    Some [mkSource (Js.JStr "policy.txt") Js.JNull Js.JNull]
      = Some (map LangChainService.to_source docs).
Proof.
  destruct (sources_from_second_retrieval (RT := Sample.runtime Sample.healthy)
              Sample.refund_question [] (Sample.boot 1700000000000)
              (snd (LangChainService.query (RT := Sample.runtime Sample.healthy)
                      Sample.refund_question [] (Sample.boot 1700000000000)))
              (mkQueryResult "Refunds are issued within 30 days."
                 (Some [mkSource (Js.JStr "policy.txt") Js.JNull Js.JNull]) None None))
    as (s & rr & rc & docs & _ & _ & Hsrc).
  - vm_compute. reflexivity.
  - reflexivity.
  - exists docs. exact Hsrc.
Defined.

(** The chunk of policy.txt has index 0 and is cited with [chunk = null]. *)
Lemma source_falsy_fields_null_witness :
  exists docs,
    last (calls (snd (LangChainService.query (RT := Sample.runtime Sample.healthy)
                        Sample.refund_question [] (Sample.boot 1700000000000))))
      = Some (CallRetrieve Sample.refund_question (Ok docs)) /\
    docs !! 0%nat = Some Sample.refunds /\
    Js.prop (metadata Sample.refunds) "chunk" = Js.JNum 0 /\
    chunk (mkSource (Js.JStr "policy.txt") Js.JNull Js.JNull) = Js.JNull.
Proof.
  destruct (source_falsy_fields_null (RT := Sample.runtime Sample.healthy)
              Sample.refund_question [] (Sample.boot 1700000000000)
              (snd (LangChainService.query (RT := Sample.runtime Sample.healthy)
                      Sample.refund_question [] (Sample.boot 1700000000000)))
              (mkQueryResult "Refunds are issued within 30 days."
                 (Some [mkSource (Js.JStr "policy.txt") Js.JNull Js.JNull]) None None)
              [mkSource (Js.JStr "policy.txt") Js.JNull Js.JNull])
    as (docs & Hlast & Hlen & Hfields).
  - vm_compute. reflexivity.
  - reflexivity.
  - exists docs. split; [exact Hlast|].
    assert (Hdocs : docs = [Sample.refunds]).
    { vm_compute in Hlast. injection Hlast as <-. vm_compute. reflexivity. }
    subst docs. split; [reflexivity|]. split; [vm_compute; reflexivity|].
    destruct (Hfields 0%nat Sample.refunds _ eq_refl eq_refl) as (_ & Hzero & _).
    apply Hzero. vm_compute. reflexivity.
Defined.


(** ** The chat controller *)

Section ChatFacts.
Context {E : Type} {RT : Runtime E}.

Lemma generateConversationId_run (w : World E) :
  exists (t : Z) r w',
    ChatController.generateConversationId w = (Ok ("conv-" +:+ pretty t +:+ "-" +:+ r), w') /\
    extends w w' [] /\ initialized w' = initialized w.
Proof.
  unfold ChatController.generateConversationId. unfold_monad.
  destruct (Date_now (ext w)) as [t e1]. cbn.
  destruct (random_suffix e1) as [r e2].
  exists t, r. eexists. split; [reflexivity|].
  split; [|reflexivity]. unfold extends; cbn. rewrite app_nil_r. auto.
Qed.

(** A known ID is kept; otherwise the generated ID is stored with a
    conversation holding the system message alone. *)
Lemma ensureConversation_run (cid : option string) (w : World E) :
  (exists c, cid = Some c /\ is_Some (conversations w !! c) /\ c <> "" /\
             ChatController.unknownId cid (conversations w) = false /\
             ChatController.ensureConversation cid w = (Ok c, w))
  \/ (exists gid wg tm tc w1,
        ChatController.unknownId cid (conversations w) = true /\
        ChatController.generateConversationId w = (Ok gid, wg) /\
        ChatController.ensureConversation cid w = (Ok gid, w1) /\
        conversations w1 =
          <[gid := mkConversation gid
                     [mkMessage system
                        "I am an AI assistant that helps with your documentation."
                        None tm] tc]> (conversations w) /\
        calls w1 = calls w /\ processedDir w1 = processedDir w /\
        initialized w1 = initialized w).
Proof.
  unfold ChatController.ensureConversation.
  destruct (ChatController.unknownId cid (conversations w)) eqn:Hu.
  - right.
    destruct (generateConversationId_run w) as (t & r & wg & Hg & (Hc0 & Hv0 & Hp0) & Hi0).
    rewrite (bind_ok _ _ _ _ _ Hg).
    destruct (now_iso_extends wg) as (tm & w2 & H2 & (Hc2 & Hv2 & Hp2) & Hi2).
    rewrite (bind_ok _ _ _ _ _ H2).
    destruct (now_iso_extends w2) as (tc & w3 & H3 & (Hc3 & Hv3 & Hp3) & Hi3).
    rewrite (bind_ok _ _ _ _ _ H3).
    unfold ChatController.setConversation. unfold_monad. cbn.
    eexists _, wg, tm, tc, _. split; [reflexivity|]. split; [exact Hg|].
    split; [reflexivity|]. cbn.
    rewrite Hv3, Hv2, Hv0, Hc3, Hc2, Hc0, Hp3, Hp2, Hp0, Hi3, Hi2, Hi0, !app_nil_r.
    auto.
  - left. unfold ChatController.unknownId in Hu.
    destruct cid as [c|]; [|discriminate].
    apply orb_false_iff in Hu as [Hne Hhas].
    apply negb_false_iff, bool_decide_eq_true in Hhas.
    exists c. repeat split; auto.
    intros ->. discriminate.
Qed.

Lemma ensureConversation_stored (cid : option string) (w : World E) :
  exists cid' w1 c,
    ChatController.ensureConversation cid w = (Ok cid', w1) /\
    conversations w1 !! cid' = Some c /\
    calls w1 = calls w /\ processedDir w1 = processedDir w.
Proof.
  destruct (ensureConversation_run cid w)
    as [(c & -> & [cv Hcv] & _ & _ & H) |
        (gid & wg & tm & tc & w1 & _ & _ & H & Hv & Hc & Hp & _)].
  - exists c, w, cv. auto.
  - eexists gid, w1, _. split; [exact H|]. rewrite Hv, lookup_insert_eq. auto.
Qed.

(** One [processMessage]: the conversation now ends with the user message
    and the assistant message, and the response carries the text of the
    [query] result. *)
Lemma processMessage_run (message : string) (cid : option string) (w : World E) :
  exists cid' w1 c qr tu ta t w' new wq,
    ChatController.ensureConversation cid w = (Ok cid', w1) /\
    conversations w1 !! cid' = Some c /\
    ChatController.processMessage message cid w =
      (Ok (mkChatResponse (qr_text qr) (default [] (qr_sources qr)) None cid'
             (default false (qr_escalate qr)
              || ChatController.shouldEscalate (qr_text qr)) t), w') /\
    conversations w' =
      <[cid' := mkConversation (conv_id c)
                  (messages c ++
                     [ mkMessage user message None tu;
                       mkMessage assistant (qr_text qr)
                         (Some (default [] (qr_sources qr))) ta ])
                  (createdAt c)]> (conversations w1) /\
    calls w' = calls w ++ new /\
    processedDir w' = processedDir w /\
    query_runs message (drop 1 (messages c ++ [mkMessage user message None tu]))
      wq qr new.
Proof.
  destruct (ensureConversation_stored cid w) as (cid' & w1 & c & H1 & Hc & Hl1 & Hp1).
  unfold ChatController.processMessage.
  rewrite (bind_ok _ _ _ _ _ H1).
  unfold try_catch.
  unfold bind at 1. rewrite Hc.
  destruct (now_iso_extends w1) as (tu & w2 & H2 & (Hl2 & Hv2 & Hp2) & _).
  rewrite (bind_ok _ _ _ _ _ H2).
  unfold ChatController.pushMessage at 1, ChatController.setConversation at 1.
  unfold bind at 1. unfold bind at 1. unfold ret at 1. cbn [messages conv_id createdAt].
  match goal with |- context [bind (LangChainService.query ?q ?h) _ ?w] =>
    destruct (query_spec q h w) as (qr & w3 & new & H3 & (Hl3 & Hv3 & Hp3) & Hruns);
    rewrite (bind_ok _ _ _ _ _ H3)
  end.
  destruct (now_iso_extends w3) as (ta & w4 & H4 & (Hl4 & Hv4 & Hp4) & _).
  rewrite (bind_ok _ _ _ _ _ H4).
  unfold ChatController.pushMessage at 1, ChatController.setConversation.
  unfold bind at 1. unfold bind at 1. unfold ret at 1. unfold bind at 1.
  cbn [messages conv_id createdAt].
  match goal with |- context [bind now_iso _ ?w] =>
    destruct (now_iso_extends w) as (t & w5 & H5 & (Hl5 & Hv5 & Hp5) & _)
  end.
  rewrite (bind_ok _ _ _ _ _ H5). unfold ret.
  eexists cid', w1, c, qr, tu, ta, t, w5, new, _.
  split; [exact H1|]. split; [exact Hc|]. split; [reflexivity|].
  split; [|split; [|split; [|exact Hruns]]].
  all: cbn in Hv3, Hl3, Hp3, Hv5, Hl5, Hp5.
  - rewrite Hv5, Hv4, Hv3, Hv2, !insert_insert_eq, <- app_assoc. reflexivity.
  - rewrite Hl5, Hl4, Hl3, Hl2, Hl1, !app_nil_r. reflexivity.
  - rewrite Hp5, Hp4, Hp3, Hp2, Hp1. reflexivity.
Qed.
End ChatFacts.

(** *** Claims about the chat controller *)

Section ChatClaims.
Context {E : Type} {RT : Runtime E}.

Lemma shouldEscalate_contains_ci (text phrase : string) :
  In phrase ChatController.lowConfidenceIndicators ->
  contains_ci text phrase ->
  ChatController.shouldEscalate text = true.
Proof.
  intros Hin (pre & mid & post & -> & Hmid).
  unfold ChatController.shouldEscalate, Js.some.
  apply existsb_exists. exists phrase. split; [exact Hin|].
  rewrite !toLowerCase_app, Hmid. apply includes_app.
Qed.

(** What [shouldEscalate] accepts contains a phrase of the list up to case. *)
Lemma shouldEscalate_inv (text : string) :
  ChatController.shouldEscalate text = true ->
  exists phrase pre post,
    In phrase ChatController.lowConfidenceIndicators /\
    Js.toLowerCase text = pre +:+ Js.toLowerCase phrase +:+ post.
Proof.
  unfold ChatController.shouldEscalate, Js.some.
  intros H. apply existsb_exists in H as (phrase & Hin & Hinc).
  apply includes_inv in Hinc as (pre & post & Heq). eauto.
Qed.

(** C3.  Whatever [processMessage] returns, if the text of the response
    contains one of the low-confidence phrases, in any letter case, as a
    substring, then the response's [escalate] flag is true; in particular
    when the inference call succeeded and the text is the model's. *)
Theorem processMessage_escalates_low_confidence (message : string)
    (cid : option string) (w w' : World E) (resp : ChatResponse) :
  ChatController.processMessage message cid w = (Ok resp, w') ->
  (exists phrase, In phrase ChatController.lowConfidenceIndicators /\
                  contains_ci (text resp) phrase) ->
  escalate resp = true.
Proof.
  intros Hrun (phrase & Hin & Hci).
  destruct (processMessage_run message cid w)
    as (cid' & w1 & c & qr & tu & ta & t & w0 & new & wq & _ & _ & Hrun0 & _).
  rewrite Hrun in Hrun0. injection Hrun0 as -> _.
  cbn [text escalate] in *. rewrite (shouldEscalate_contains_ci _ _ Hin Hci).
  apply orb_true_r.
Qed.

(** The store keeps its invariants across [processMessage]. *)
Lemma processMessage_keys_generated (message : string) (cid : option string)
    (w : World E) :
  keys_generated (conversations w) ->
  keys_generated (conversations (snd (ChatController.processMessage message cid w))).
Proof.
  intros Hkeys.
  destruct (processMessage_run message cid w)
    as (cid' & w1 & c & qr & tu & ta & t & w' & new & wq & Hens & Hc & -> & Hv & _).
  cbn. rewrite Hv. clear Hv.
  assert (Hkeys1 : keys_generated (conversations w1)).
  { destruct (ensureConversation_run cid w)
      as [(k & -> & _ & _ & _ & H) |
          (gid & wg & tm & tc & w1' & _ & Hg & H & Hv1 & _)];
      rewrite Hens in H; injection H as <- <-; [exact Hkeys|].
    rewrite Hv1. intros k conv Hk.
    destruct (decide (cid' = k)) as [<-|Hne].
    - destruct (generateConversationId_run w) as (t0 & r0 & wg0 & Hg0 & _).
      rewrite Hg in Hg0. injection Hg0 as -> _.
      apply (startsWith_app "conv-").
    - rewrite lookup_insert_ne in Hk by exact Hne. exact (Hkeys k conv Hk). }
  intros k conv Hk.
  destruct (decide (cid' = k)) as [<-|Hne].
  - exact (Hkeys1 cid' c Hc).
  - rewrite lookup_insert_ne in Hk by exact Hne. exact (Hkeys1 k conv Hk).
Qed.

(** C7.  In a store whose keys are generated IDs, [handleEscalation] on a
    known conversation ID returns a ticket with status pending, that
    conversation ID and the given reason, and leaves the store alone; on a
    missing or unknown ID it throws "Invalid conversation ID" and returns no
    ticket. *)
Theorem handleEscalation_ticket_or_error (cid : option string) (reason : string)
    (w : World E) :
  keys_generated (conversations w) ->
  (forall c, cid = Some c -> is_Some (conversations w !! c) ->
     exists ticket w',
       ChatController.handleEscalation cid reason w = (Ok ticket, w') /\
       status ticket = pending /\
       ticket_conversationId ticket = c /\
       ticket_reason ticket = reason /\
       conversations w' = conversations w)
  /\ ((cid = None \/ exists c, cid = Some c /\ conversations w !! c = None) ->
      ChatController.handleEscalation cid reason w =
        (Throw (mkError "Invalid conversation ID" None), w)).
Proof.
  intros Hkeys. split.
  - intros c -> [conv Hc].
    assert (Hknown : ChatController.unknownId (Some c) (conversations w) = false).
    { cbn. rewrite Hc. rewrite bool_decide_eq_true_2 by eauto.
      destruct c; [|reflexivity].
      specialize (Hkeys _ _ Hc). discriminate. }
    unfold ChatController.handleEscalation, try_catch.
    unfold bind at 1. rewrite Hknown.
    destruct (Date_now (ext w)) as [t e1] eqn:Ht.
    destruct (random_suffix e1) as [r e2] eqn:Hr.
    destruct (Date_now e2) as [t2 e3] eqn:Ht2.
    unfold_monad. rewrite Ht. cbn. rewrite Hr. cbn. rewrite Ht2. cbn.
    eexists _, _. split; [reflexivity|]. cbn. auto.
  - intros Hunknown.
    assert (Hu : ChatController.unknownId cid (conversations w) = true).
    { destruct Hunknown as [-> | (c & -> & Hc)]; [reflexivity|].
      cbn. rewrite Hc. rewrite bool_decide_eq_false_2 by (intros [? ?]; discriminate).
      apply orb_true_r. }
    unfold ChatController.handleEscalation, try_catch.
    unfold bind at 1. rewrite Hu. reflexivity.
Qed.


(** One [processMessage] in the model, where the [try] block runs to its
    end: the response, the two messages added, and the store afterwards. *)
Lemma processMessage_growth_run (message : string)
    (cid : option string) (w : World E) :
  starts_with_system (conversations w) ->
  exists resp w' mu ma,
    ChatController.processMessage message cid w = (Ok resp, w') /\
    role mu = user /\ content mu = message /\
    role ma = assistant /\ content ma = text resp /\
    starts_with_system (conversations w') /\
    (forall k, k <> conversationId resp ->
       conversations w' !! k = conversations w !! k) /\
    (forall c conv,
       cid = Some c -> c <> "" -> conversations w !! c = Some conv ->
       conversationId resp = c /\
       conversations w' !! c =
         Some (mkConversation (conv_id conv) (messages conv ++ [mu; ma])
                 (createdAt conv))) /\
    (ChatController.unknownId cid (conversations w) = true ->
     exists wg ms created,
       ChatController.generateConversationId w = (Ok (conversationId resp), wg) /\
       role ms = system /\
       conversations w' !! conversationId resp =
         Some (mkConversation (conversationId resp) [ms; mu; ma] created)).
Proof.
  intros Hsys.
  destruct (processMessage_run message cid w)
    as (cid' & w1 & c & qr & tu & ta & t & w' & new & wq & Hens & Hc & Hrun & Hv & _).
  eexists _, w', (mkMessage user message None tu),
    (mkMessage assistant (qr_text qr) (Some (default [] (qr_sources qr))) ta).
  split; [exact Hrun|]. cbn [role content text conversationId].
  do 4 (split; [reflexivity|]).
  rewrite Hv. clear Hv Hrun.
  destruct (ensureConversation_run cid w)
    as [(k & -> & _ & Hk & Hknown & H) |
        (gid & wg & tm & tc & w1' & Hunknown & Hg & H & Hv1 & _)];
    rewrite Hens in H; injection H as <- <-.
  - (* a known conversation *)
    split; [|split; [|split]].
    + intros k conv Hlook.
      destruct (decide (cid' = k)) as [<-|Hne].
      * rewrite lookup_insert_eq in Hlook. injection Hlook as <-.
        destruct (Hsys _ _ Hc) as (m & rest & Hm & Hrole).
        exists m, (rest ++ [mkMessage user message None tu;
                            mkMessage assistant (qr_text qr)
                              (Some (default [] (qr_sources qr))) ta]).
        cbn. rewrite Hm. auto.
      * rewrite lookup_insert_ne in Hlook by exact Hne. exact (Hsys _ _ Hlook).
    + intros k Hne. apply lookup_insert_ne. congruence.
    + intros c0 conv Hc0 _ Hconv. injection Hc0 as <-.
      rewrite Hc in Hconv. injection Hconv as <-.
      split; [reflexivity | apply lookup_insert_eq].
    + intros Hu. rewrite Hu in Hknown. discriminate.
  - (* a new conversation *)
    rewrite Hv1 in Hc. rewrite lookup_insert_eq in Hc. injection Hc as <-.
    rewrite Hv1, insert_insert_eq. cbn [messages conv_id createdAt app].
    split; [|split; [|split]].
    + intros k conv Hlook.
      destruct (decide (cid' = k)) as [<-|Hne].
      * rewrite lookup_insert_eq in Hlook. injection Hlook as <-.
        eexists _, _. cbn. split; reflexivity.
      * rewrite lookup_insert_ne in Hlook by exact Hne. exact (Hsys _ _ Hlook).
    + intros k Hne. apply lookup_insert_ne. congruence.
    + intros c0 conv -> Hne Hconv.
      cbn in Hunknown. rewrite Hconv in Hunknown.
      rewrite bool_decide_eq_true_2 in Hunknown by eauto.
      destruct c0; [congruence | discriminate].
    + intros _. eexists wg, _, _. split; [exact Hg|].
      split; [|apply lookup_insert_eq]. reflexivity.
Qed.

(** C9, as amended.  For every call of [processMessage] that returns: every
    stored conversation still starts with a system message, and no
    conversation other than the one answered under changes.  With a missing
    or unknown ID, the call answers under the ID [generateConversationId]
    produces (nothing makes that token differ from an unknown ID the caller
    supplied), and the conversation stored under it starts with a system
    message.  For every successful call (the response has no [error] field):
    a known conversation gains exactly two messages, the user's and then the
    assistant's, and a new conversation holds the system message followed by
    those two. *)
Theorem processMessage_conversation_growth (message : string)
    (cid : option string) (w w' : World E) (resp : ChatResponse) :
  starts_with_system (conversations w) ->
  ChatController.processMessage message cid w = (Ok resp, w') ->
  starts_with_system (conversations w') /\
  (forall k, k <> conversationId resp ->
     conversations w' !! k = conversations w !! k) /\
  (ChatController.unknownId cid (conversations w) = true ->
   exists wg conv ms rest,
     ChatController.generateConversationId w = (Ok (conversationId resp), wg) /\
     conversations w' !! conversationId resp = Some conv /\
     messages conv = ms :: rest /\ role ms = system) /\
  (error resp = None ->
   exists mu ma,
     role mu = user /\ content mu = message /\
     role ma = assistant /\ content ma = text resp /\
     (forall c conv,
        cid = Some c -> c <> "" -> conversations w !! c = Some conv ->
        conversationId resp = c /\
        conversations w' !! c =
          Some (mkConversation (conv_id conv) (messages conv ++ [mu; ma])
                  (createdAt conv))) /\
     (ChatController.unknownId cid (conversations w) = true ->
      exists ms created,
        role ms = system /\
        conversations w' !! conversationId resp =
          Some (mkConversation (conversationId resp) [ms; mu; ma] created))).
Proof.
  intros Hsys Hrun.
  destruct (processMessage_growth_run message cid w Hsys)
    as (resp0 & w0 & mu & ma & Hrun0 & Hmu & Hcu & Hma & Hca & Hsys' & Hother &
        Hknown & Hnew).
  rewrite Hrun in Hrun0. injection Hrun0 as <- <-.
  split; [exact Hsys'|]. split; [exact Hother|]. split.
  - intros Hu. destruct (Hnew Hu) as (wg & ms & created & Hg & Hms & Hconv).
    exists wg, (mkConversation (conversationId resp) [ms; mu; ma] created), ms, [mu; ma].
    auto.
  - intros _. exists mu, ma.
    split; [exact Hmu|]. split; [exact Hcu|]. split; [exact Hma|].
    split; [exact Hca|]. split; [exact Hknown|].
    intros Hu. destruct (Hnew Hu) as (wg & ms & created & Hg & Hms & Hconv).
    exists ms, created. auto.
Qed.

End ChatClaims.

(** The model answers in upper case that it does not know: the response
    escalates. *)
Lemma processMessage_escalates_low_confidence_witness :
  exists resp,
    fst (ChatController.processMessage (RT := Sample.runtime Sample.unsure)
           Sample.refund_question None (Sample.boot 1700000000000)) = Ok resp /\
    text resp = "Sorry, I DON'T KNOW the answer to that." /\
    escalate resp = true.
Proof.
  set (run := ChatController.processMessage (RT := Sample.runtime Sample.unsure)
                Sample.refund_question None (Sample.boot 1700000000000)).
  assert (Hrun : exists resp,
             run = (Ok resp, snd run) /\
             text resp = "Sorry, I DON'T KNOW the answer to that.").
  { vm_compute. eexists. split; reflexivity. }
  destruct Hrun as (resp & Hrun & Htext).
  exists resp. split; [rewrite Hrun; reflexivity|]. split; [exact Htext|].
  apply (processMessage_escalates_low_confidence
           (RT := Sample.runtime Sample.unsure) _ _ _ _ _ Hrun).
  exists "I don't know". split; [left; reflexivity|].
  rewrite Htext. exists "Sorry, ", "I DON'T KNOW", " the answer to that.".
  split; reflexivity.
Defined.

(** After one message the conversation is known and can be escalated;
    "conv-X" cannot. *)
Lemma handleEscalation_ticket_or_error_witness :
  let w1 := snd (ChatController.processMessage (RT := Sample.runtime Sample.healthy)
                   Sample.refund_question None (Sample.boot 1700000000000)) in
  (exists ticket w',
      ChatController.handleEscalation (RT := Sample.runtime Sample.healthy)
        (Some "conv-1700000000000-k3x9q") "test" w1 = (Ok ticket, w') /\
      status ticket = pending /\
      ticket_conversationId ticket = "conv-1700000000000-k3x9q")
  /\ ChatController.handleEscalation (RT := Sample.runtime Sample.healthy)
       (Some "conv-X") "test" w1
     = (Throw (mkError "Invalid conversation ID" None), w1).
Proof.
  intros w1.
  assert (Hkeys : keys_generated (conversations w1)).
  { apply (processMessage_keys_generated (RT := Sample.runtime Sample.healthy)).
    intros k c H. change ((∅ : gmap string Conversation) !! k = Some c) in H.
    rewrite lookup_empty in H. discriminate. }
  split.
  - destruct (proj1 (handleEscalation_ticket_or_error
                       (RT := Sample.runtime Sample.healthy)
                       (Some "conv-1700000000000-k3x9q") "test" w1 Hkeys)
                "conv-1700000000000-k3x9q" eq_refl)
      as (ticket & w' & Hrun & Hstatus & Hid & _).
    + vm_compute. eauto.
    + exists ticket, w'. auto.
  - apply (proj2 (handleEscalation_ticket_or_error
                    (RT := Sample.runtime Sample.healthy)
                    (Some "conv-X") "test" w1 Hkeys)).
    right. exists "conv-X". split; [reflexivity | vm_compute; reflexivity].
Defined.

(** C9, as stated, fails in one respect: the generated ID is built from the
    clock and [Math.random] alone, so it can be the very unknown ID the
    caller supplied. *)
Lemma generated_id_may_equal_supplied :
  conversations (Sample.boot 1700000000000) !! "conv-1700000000000-k3x9q" = None
  /\ exists resp w',
       ChatController.processMessage (RT := Sample.runtime Sample.healthy)
         "hello" (Some "conv-1700000000000-k3x9q") (Sample.boot 1700000000000)
         = (Ok resp, w') /\
       conversationId resp = "conv-1700000000000-k3x9q".
Proof.
  split; [reflexivity|].
  vm_compute. eexists _, _. split; reflexivity.
Qed.

(** A first message without an ID leaves a conversation of three
    messages. *)
Lemma processMessage_conversation_growth_witness :
  exists resp ms mu ma created,
    fst (ChatController.processMessage (RT := Sample.runtime Sample.healthy)
           Sample.refund_question None (Sample.boot 1700000000000)) = Ok resp /\
    error resp = None /\
    role ms = system /\ role mu = user /\ role ma = assistant /\
    conversations
      (snd (ChatController.processMessage (RT := Sample.runtime Sample.healthy)
              Sample.refund_question None (Sample.boot 1700000000000)))
      !! conversationId resp =
      Some (mkConversation (conversationId resp) [ms; mu; ma] created).
Proof.
  set (run := ChatController.processMessage (RT := Sample.runtime Sample.healthy)
                Sample.refund_question None (Sample.boot 1700000000000)).
  assert (Hrun : exists resp, run = (Ok resp, snd run) /\ error resp = None).
  { vm_compute. eexists. split; reflexivity. }
  destruct Hrun as (resp & Hrun & Herr).
  destruct (processMessage_conversation_growth (RT := Sample.runtime Sample.healthy)
              Sample.refund_question None (Sample.boot 1700000000000) (snd run) resp)
    as (_ & _ & _ & Hok).
  - intros k c H. change ((∅ : gmap string Conversation) !! k = Some c) in H.
    rewrite lookup_empty in H. discriminate.
  - exact Hrun.
  - destruct (Hok Herr) as (mu & ma & Hmu & _ & Hma & _ & _ & Hnew).
    destruct (Hnew eq_refl) as (ms & created & Hms & Hconv).
    exists resp, ms, mu, ma, created.
    split; [rewrite Hrun; reflexivity|]. auto 6.
Defined.


(** ** Ingestion *)

Section IngestionFacts.
Context {E : Type} {RT : Runtime E}.

Lemma loaders_lookup (ext : string) :
  match Processor.loaders !! ext with
  | Some _ => In ext [".pdf"; ".docx"; ".txt"; ".md"]
  | None => ~ In ext [".pdf"; ".docx"; ".txt"; ".md"]
  end.
Proof.
  unfold Processor.loaders.
  destruct (decide (ext = ".pdf")) as [->|H1]; [rewrite lookup_insert_eq; simpl; auto|].
  rewrite lookup_insert_ne by congruence.
  destruct (decide (ext = ".docx")) as [->|H2]; [rewrite lookup_insert_eq; simpl; auto|].
  rewrite lookup_insert_ne by congruence.
  destruct (decide (ext = ".txt")) as [->|H3]; [rewrite lookup_insert_eq; simpl; auto|].
  rewrite lookup_insert_ne by congruence.
  destruct (decide (ext = ".md")) as [->|H4]; [rewrite lookup_insert_eq; simpl; auto|].
  rewrite lookup_insert_ne by congruence.
  rewrite lookup_empty. simpl. intuition congruence.
Qed.

(** The service's metadata pass: no call is logged, the chunks keep their
    order and text, and the chunk at offset [j] gets index [i + j]. *)
Lemma addMetadata_run (fileName filePath : string) (docs : list Document) :
  forall (i : nat) (w : World E),
  exists pdocs w',
    Processor.addMetadata fileName filePath i docs w = (Ok pdocs, w') /\
    extends w w' [] /\ embeddingsInstance w' = embeddingsInstance w /\
    map pageContent pdocs = map pageContent docs /\
    (forall (j : nat) (d : Document),
        pdocs !! j = Some d ->
        metadata d !! "chunk" = Some (Js.JNum (Z.of_nat (i + j)))).
Proof.
  induction docs as [|doc rest IH]; intros i w; cbn [Processor.addMetadata].
  - exists [], w. unfold ret.
    split; [reflexivity|]. split; [apply extends_refl|].
    split; [reflexivity|]. split; [reflexivity|].
    intros j d Hj. rewrite lookup_nil in Hj. discriminate.
  - destruct (now_iso_run w) as (t & e' & _ & Ht).
    rewrite (bind_ok _ _ _ _ _ Ht).
    destruct (IH (S i) (set_ext e' w)) as (prest & w' & Hrest & Hext & Hemb & Hpc & Hidx).
    rewrite (bind_ok _ _ _ _ _ Hrest). unfold ret.
    eexists _, w'. split; [reflexivity|].
    split; [exact (extends_trans _ _ _ [] [] (extends_set_ext w e') Hext)|].
    split; [exact Hemb|].
    split; [cbn; now rewrite Hpc|].
    intros [|j] d Hj; cbn in Hj.
    + injection Hj as <-. cbn.
      rewrite lookup_insert_ne by discriminate.
      rewrite lookup_insert_ne by discriminate.
      rewrite lookup_insert_eq. do 3 f_equal. lia.
    + rewrite (Hidx j d Hj). do 3 f_equal. lia.
Qed.

(** The script's metadata pass. *)
Lemma ingest_addMetadata_indexed (filePath : string) (sd : list Document) :
  indexed_copy sd (Ingest.addMetadata filePath sd).
Proof.
  unfold indexed_copy, Ingest.addMetadata. split.
  - change (map pageContent) with (fmap (M := list) pageContent).
    rewrite fmap_imap. unfold compose. cbn. apply imap_const.
  - intros i d Hd. rewrite list_lookup_imap in Hd.
    destruct (sd !! i) as [doc|]; [|discriminate].
    injection Hd as <-. cbn.
    rewrite lookup_insert_ne by discriminate.
    apply lookup_insert_eq.
Qed.

Lemma getEmbeddings_run (w : World E) :
  exists r w' emb,
    Processor.getEmbeddings w = (r, w') /\ extends w w' emb /\
    ((r = Ok tt /\ embeddings_step emb)
     \/ (exists e, r = Throw e /\ emb = [CallEmbeddings (Throw e)])).
Proof.
  unfold Processor.getEmbeddings.
  destruct (embeddingsInstance w).
  - exists (Ok tt), w, []. split; [reflexivity|]. split; [apply extends_refl|].
    left. split; [reflexivity | now left].
  - destruct (traced_run new_embeddings CallEmbeddings w)
      as (r & w1 & _ & Hr & Hext & _).
    destruct r as [[]|e].
    + rewrite (bind_ok _ _ _ _ _ Hr).
      eexists (Ok tt), _, _. split; [reflexivity|].
      split; [|left; split; [reflexivity | now right]].
      destruct Hext as (? & ? & ?). unfold extends. cbn. auto.
    + rewrite (bind_throw _ _ _ _ _ Hr).
      eexists (Throw e), _, _. split; [reflexivity|]. split; [exact Hext|].
      right. eauto.
Qed.


Lemma writeFileSync_run (name : string) (json : ManifestJson) (w : World E) :
  Processor.writeFileSync name json w =
    (Ok tt, set_processedDir (<[name := json]> (processedDir w))
              (add_call (CallWriteFile name json) w)).
Proof. reflexivity. Qed.

(** The service's [processFile] on an accepted extension. *)
Lemma processFile_accepted (filePath : string) (kind : LoaderKind) (w : World E) :
  Processor.loaders !! Js.toLowerCase (extname filePath) = Some kind ->
  exists r w' new failure,
    Processor.processFile filePath w = (r, w') /\
    calls w' = calls w ++ new /\
    ingestion_steps kind filePath new failure /\
    match failure with
    | Some e => r = Throw e /\ processedDir w' = processedDir w
    | None =>
        exists info name,
          r = Ok info /\ last new = Some (CallWriteFile name info) /\
          processedDir w' = <[name := info]> (processedDir w)
    end.
Proof.
  intros Hk. unfold Processor.processFile. rewrite Hk.
  unfold Processor.load, Processor.split, Processor.fromDocuments, ingestion_steps.
  destruct (traced_run (loader_load kind filePath) (CallLoad kind filePath) w)
    as (rl & w1 & _ & H1 & (Hl1 & _ & Hp1) & _).
  destruct rl as [docs|e].
  2:{ rewrite (bind_throw _ _ _ _ _ H1).
      eexists _, _, _, (Some e). split; [reflexivity|]. split; [exact Hl1|].
      split; [left; eauto | auto]. }
  rewrite (bind_ok _ _ _ _ _ H1).
  destruct (traced_run (splitDocuments docs) (CallSplit docs) w1)
    as (rs & w2 & _ & H2 & (Hl2 & _ & Hp2) & _).
  destruct rs as [sd|e].
  2:{ rewrite (bind_throw _ _ _ _ _ H2).
      eexists _, _, _, (Some e). split; [reflexivity|].
      split; [rewrite Hl1, <- app_assoc in Hl2; exact Hl2|].
      split; [right; left; eauto | split; [reflexivity | congruence]]. }
  rewrite (bind_ok _ _ _ _ _ H2).
  destruct (addMetadata_run (basename filePath None) filePath sd 0%nat w2)
    as (pdocs & w3 & H3 & (Hl3 & _ & Hp3) & _ & Hpc & Hidx).
  rewrite (bind_ok _ _ _ _ _ H3).
  assert (Hcopy : indexed_copy sd pdocs) by (split; [exact Hpc | exact Hidx]).
  destruct (getEmbeddings_run w3)
    as (re & w4 & emb & H4 & (Hl4 & _ & Hp4) & [[-> Hemb] | (e & -> & ->)]).
  2:{ rewrite (bind_throw _ _ _ _ _ H4).
      eexists _, _, _, (Some e). split; [reflexivity|].
      split; [rewrite Hl3, Hl2, Hl1, app_nil_r, <- !app_assoc in Hl4; exact Hl4|].
      split; [right; right; left; eauto | split; [reflexivity | congruence]]. }
  rewrite (bind_ok _ _ _ _ _ H4).
  destruct (traced_run (Chroma_fromDocuments pdocs) (CallUpsert pdocs) w4)
    as (ru & w5 & _ & H5 & (Hl5 & _ & Hp5) & _).
  destruct ru as [[]|e].
  2:{ rewrite (bind_throw _ _ _ _ _ H5).
      eexists _, _.
      rewrite Hl4, Hl3, Hl2, Hl1, app_nil_r, <- !app_assoc in Hl5.
      exists ([CallLoad kind filePath (Ok docs); CallSplit docs (Ok sd)]
                ++ emb ++ [CallUpsert pdocs (Throw e)]), (Some e).
      split; [reflexivity|]. split; [exact Hl5|].
      split; [|split; [reflexivity | congruence]].
      right; right; right; left. exists docs, sd, emb, pdocs, e. auto. }
  rewrite (bind_ok _ _ _ _ _ H5).
  destruct (now_iso_extends w5) as (t & w6 & H6 & (Hl6 & _ & Hp6) & _).
  rewrite (bind_ok _ _ _ _ _ H6).
  erewrite bind_ok by apply writeFileSync_run. unfold ret.
  rewrite Hl5, Hl4, Hl3, Hl2, Hl1, !app_nil_r, <- !app_assoc in Hl6.
  eexists _, _,
    ([CallLoad kind filePath (Ok docs); CallSplit docs (Ok sd)]
       ++ emb ++ [CallUpsert pdocs (Ok tt); CallWriteFile _ _]), None.
  split; [reflexivity|].
  split; [cbn; rewrite Hl6, <- ?app_assoc; reflexivity|].
  split.
  - right; right; right; right.
    eexists docs, sd, emb, pdocs, _, _. auto.
  - eexists _, _. split; [reflexivity|]. split.
    + rewrite !app_assoc.
      change [CallUpsert pdocs (Ok ()); CallWriteFile ?n ?j]
        with ([CallUpsert pdocs (Ok ())] ++ [CallWriteFile n j]).
      rewrite !app_assoc. apply last_snoc.
    + cbn. congruence.
Qed.

(** The script's [processFile] on an accepted extension: it returns a
    number even when a stage failed. *)
Lemma ingest_processFile_accepted (filePath : string) (kind : LoaderKind) (w : World E) :
  Ingest.loaders !! Js.toLowerCase (extname filePath) = Some kind ->
  exists n w' new failure,
    Ingest.processFile filePath w = (Ok (Some n), w') /\
    calls w' = calls w ++ new /\
    ingestion_steps kind filePath new failure /\
    match failure with
    | Some e => n = 0%nat /\ processedDir w' = processedDir w
    | None =>
        exists info name,
          last new = Some (CallWriteFile name info) /\
          processedDir w' = <[name := info]> (processedDir w)
    end.
Proof.
  intros Hk. unfold Ingest.processFile. rewrite Hk.
  unfold Processor.load, Processor.split, Processor.fromDocuments, ingestion_steps,
    try_catch.
  destruct (traced_run (loader_load kind filePath) (CallLoad kind filePath) w)
    as (rl & w1 & _ & H1 & (Hl1 & _ & Hp1) & _).
  destruct rl as [docs|e].
  2:{ rewrite (bind_throw _ _ _ _ _ H1). unfold ret.
      eexists _, _, _, (Some e). split; [reflexivity|]. split; [exact Hl1|].
      split; [left; eauto | auto]. }
  rewrite (bind_ok _ _ _ _ _ H1).
  destruct (traced_run (splitDocuments docs) (CallSplit docs) w1)
    as (rs & w2 & _ & H2 & (Hl2 & _ & Hp2) & _).
  destruct rs as [sd|e].
  2:{ rewrite (bind_throw _ _ _ _ _ H2). unfold ret.
      eexists _, _, _, (Some e). split; [reflexivity|].
      split; [rewrite Hl1, <- app_assoc in Hl2; exact Hl2|].
      split; [right; left; eauto | split; [reflexivity | congruence]]. }
  rewrite (bind_ok _ _ _ _ _ H2).
  pose proof (ingest_addMetadata_indexed filePath sd) as Hcopy.
  set (pdocs := Ingest.addMetadata filePath sd) in *.
  destruct (traced_run (Chroma_fromDocuments pdocs) (CallUpsert pdocs) w2)
    as (ru & w5 & _ & H5 & (Hl5 & _ & Hp5) & _).
  destruct ru as [[]|e].
  2:{ rewrite (bind_throw _ _ _ _ _ H5). unfold ret.
      rewrite Hl2, Hl1, <- !app_assoc in Hl5.
      eexists _, _,
        ([CallLoad kind filePath (Ok docs); CallSplit docs (Ok sd)]
           ++ [] ++ [CallUpsert pdocs (Throw e)]), (Some e).
      split; [reflexivity|]. split; [exact Hl5|].
      split; [|split; [reflexivity | congruence]].
      right; right; right; left. exists docs, sd, [], pdocs, e.
      split; [reflexivity|]. split; [now left|]. split; [exact Hcopy | reflexivity]. }
  rewrite (bind_ok _ _ _ _ _ H5).
  destruct (now_iso_extends w5) as (t & w6 & H6 & (Hl6 & _ & Hp6) & _).
  rewrite (bind_ok _ _ _ _ _ H6).
  erewrite bind_ok by apply writeFileSync_run. unfold ret.
  rewrite Hl5, Hl2, Hl1, !app_nil_r, <- !app_assoc in Hl6.
  eexists _, _,
    ([CallLoad kind filePath (Ok docs); CallSplit docs (Ok sd)]
       ++ [] ++ [CallUpsert pdocs (Ok tt); CallWriteFile _ _]), None.
  split; [reflexivity|].
  split; [cbn; rewrite Hl6, <- ?app_assoc; reflexivity|].
  split.
  - right; right; right; right.
    eexists docs, sd, [], pdocs, _, _.
    split; [reflexivity|]. split; [now left|]. split; [exact Hcopy | reflexivity].
  - eexists _, _. split; [reflexivity|]. cbn. congruence.
Qed.


(** Reading the log of an ingestion: a failed stage is the last entry and is
    the reported failure; a failed run wrote no manifest; what was upserted
    is an indexed copy of what the splitter returned. *)
Lemma ingestion_steps_inv (kind : LoaderKind) (filePath : string)
    (new : list Call) (failure : option Error) :
  ingestion_steps kind filePath new failure ->
  (forall c e, In c new -> stage_failure c = Some e -> failure = Some e) /\
  (forall e, failure = Some e -> forall c, In c new -> is_write c = false) /\
  (forall docs ru, In (CallUpsert docs ru) new ->
     exists d0 sd, In (CallSplit d0 (Ok sd)) new /\ indexed_copy sd docs).
Proof.
  unfold ingestion_steps, embeddings_step.
  intros [(e & -> & ->) | [(docs & e & -> & ->) | [(docs & sd & e & -> & ->) |
          [(docs & sd & emb & pdocs & e & -> & Hemb & Hcopy & ->) |
           (docs & sd & emb & pdocs & name & json & -> & Hemb & Hcopy & ->)]]]].
  4,5: destruct Hemb as [-> | ->].
  all: cbn [app In stage_failure is_write].
  all: split; [intros c e0 Hin Hf | split; [intros e0 He c Hin | intros ds ru Hin]].
  all: repeat match goal with
         | H : _ \/ _ |- _ => destruct H
         | H : False |- _ => destruct H
         end; subst; cbn in *; try congruence; try reflexivity.
  all: match goal with
       | H : CallUpsert _ _ = CallUpsert _ _ |- _ => injection H as <- <-
       end; eexists _, _; split; [right; left; reflexivity | assumption].
Qed.

(** C5, as amended.  When the lower-cased extension of [filePath] is not one
    of .pdf, .docx, .txt, .md, neither ingestion path touches anything: no
    call is logged (so no upsert and no manifest write) and the state is the
    one before the call.  The service's [processFile] throws
    "Unsupported file type: <ext>"; the ingest script's [processFile] warns
    and returns without a value. *)
Theorem unsupported_extension_no_effect (filePath : string) (w : World E) :
  ~ In (Js.toLowerCase (extname filePath)) [".pdf"; ".docx"; ".txt"; ".md"] ->
  Processor.processFile filePath w =
    (Throw (mkError ("Unsupported file type: " +:+ Js.toLowerCase (extname filePath))
              None), w)
  /\ Ingest.processFile filePath w = (Ok None, w).
Proof.
  intros Hext.
  pose proof (loaders_lookup (Js.toLowerCase (extname filePath))) as Hl.
  unfold Processor.processFile, Ingest.processFile.
  change Ingest.loaders with Processor.loaders.
  destruct (Processor.loaders !! Js.toLowerCase (extname filePath)).
  - contradiction.
  - split; reflexivity.
Qed.

(** C6.  In the service's [processFile], a stage (load, chunk, embed,
    upsert) that fails makes the whole call throw that stage's error; and a
    call that throws has written no manifest: the data/processed directory is
    as it was and the log has no file write. *)
Theorem processFile_failure_propagates (filePath : string) (w w' : World E)
    (r : result ManifestJson) :
  Processor.processFile filePath w = (r, w') ->
  exists new,
    calls w' = calls w ++ new /\
    (forall c e, In c new -> stage_failure c = Some e -> r = Throw e) /\
    (forall e, r = Throw e ->
       processedDir w' = processedDir w /\
       forall c, In c new -> is_write c = false).
Proof.
  intros Hrun.
  destruct (Processor.loaders !! Js.toLowerCase (extname filePath)) as [kind|] eqn:Hk.
  - destruct (processFile_accepted filePath kind w Hk)
      as (r0 & w0 & new & failure & Hrun0 & Hcalls & Hsteps & Hres).
    rewrite Hrun in Hrun0. injection Hrun0 as <- <-.
    destruct (ingestion_steps_inv _ _ _ _ Hsteps) as (Hfail & Hnowrite & _).
    exists new. split; [exact Hcalls|]. split.
    + intros c e Hin Hf. rewrite (Hfail c e Hin Hf) in Hres. apply Hres.
    + intros e ->. destruct failure as [e'|].
      * split; [apply Hres | exact (Hnowrite e' eq_refl)].
      * destruct Hres as (info & name & Habs & _). discriminate.
  - unfold Processor.processFile in Hrun. rewrite Hk in Hrun.
    injection Hrun as <- <-. exists []. rewrite app_nil_r.
    split; [reflexivity|]. split.
    + intros c e [].
    + intros e _. split; [reflexivity | intros c []].
Qed.

(** C8.  On both ingestion paths, the chunks handed to the vector store are
    the chunks the splitter returned, in the same order, and the chunk at
    position [i] carries [chunk = i]: the indices start at 0 and are
    contiguous and strictly increasing in document order. *)
Theorem chunk_indices_contiguous (filePath : string) (w : World E) :
  (exists new,
      calls (snd (Processor.processFile filePath w)) = calls w ++ new /\
      forall docs ru,
        In (CallUpsert docs ru) new ->
        chunk_indexed docs /\
        exists d0 sd, In (CallSplit d0 (Ok sd)) new /\
                      map pageContent docs = map pageContent sd)
  /\ (exists new,
        calls (snd (Ingest.processFile filePath w)) = calls w ++ new /\
        forall docs ru,
          In (CallUpsert docs ru) new ->
          chunk_indexed docs /\
          exists d0 sd, In (CallSplit d0 (Ok sd)) new /\
                        map pageContent docs = map pageContent sd).
Proof.
  split.
  - destruct (Processor.loaders !! Js.toLowerCase (extname filePath)) as [kind|] eqn:Hk.
    + destruct (processFile_accepted filePath kind w Hk)
        as (r0 & w0 & new & failure & -> & Hcalls & Hsteps & _).
      destruct (ingestion_steps_inv _ _ _ _ Hsteps) as (_ & _ & Hup).
      exists new. split; [exact Hcalls|].
      intros docs ru Hin. destruct (Hup docs ru Hin) as (d0 & sd & Hsplit & Hpc & Hidx).
      eauto.
    + unfold Processor.processFile. rewrite Hk. exists []. cbn.
      rewrite app_nil_r. split; [reflexivity | intros docs ru []].
  - destruct (Ingest.loaders !! Js.toLowerCase (extname filePath)) as [kind|] eqn:Hk.
    + destruct (ingest_processFile_accepted filePath kind w Hk)
        as (n & w0 & new & failure & -> & Hcalls & Hsteps & _).
      destruct (ingestion_steps_inv _ _ _ _ Hsteps) as (_ & _ & Hup).
      exists new. split; [exact Hcalls|].
      intros docs ru Hin. destruct (Hup docs ru Hin) as (d0 & sd & Hsplit & Hpc & Hidx).
      eauto.
    + unfold Ingest.processFile, try_catch. rewrite Hk. exists []. cbn.
      rewrite app_nil_r. split; [reflexivity | intros docs ru []].
Qed.

End IngestionFacts.

(** C5, as stated, fails on the ingest script: for /data/raw/notes.exe its
    [processFile] returns normally instead of failing. *)
Lemma ingest_script_unsupported_returns :
  ~ In (Js.toLowerCase (Sample.path_extname "/data/raw/notes.exe"))
       [".pdf"; ".docx"; ".txt"; ".md"]
  /\ ~ exists e w',
         Ingest.processFile (RT := Sample.runtime Sample.healthy)
           "/data/raw/notes.exe" (Sample.boot 1700000000000) = (Throw e, w').
Proof.
  split.
  - vm_compute. intuition discriminate.
  - intros (e & w' & H). vm_compute in H. discriminate.
Qed.

(** notes.exe is rejected by the service and skipped by the script. *)
Lemma unsupported_extension_no_effect_witness :
  Processor.processFile (RT := Sample.runtime Sample.healthy)
    "/data/raw/notes.exe" (Sample.boot 1700000000000) =
    (Throw (mkError "Unsupported file type: .exe" None), Sample.boot 1700000000000)
  /\ Ingest.processFile (RT := Sample.runtime Sample.healthy)
       "/data/raw/notes.exe" (Sample.boot 1700000000000) =
       (Ok None, Sample.boot 1700000000000).
Proof.
  apply (unsupported_extension_no_effect (RT := Sample.runtime Sample.healthy)
           "/data/raw/notes.exe" (Sample.boot 1700000000000)).
  vm_compute. intuition discriminate.
Defined.

(** Chroma refuses the upsert of policy.txt: the error reaches the caller and
    data/processed stays empty. *)
Lemma processFile_failure_propagates_witness :
  exists new,
    calls (snd (Processor.processFile (RT := Sample.runtime Sample.chroma_down)
                  "/data/raw/policy.txt" (Sample.boot 1700000000000)))
      = [] ++ new /\
    (forall c e, In c new -> stage_failure c = Some e ->
       @Throw ManifestJson
         (mkError "connect ECONNREFUSED 127.0.0.1:8000" (Some "ECONNREFUSED"))
         = Throw e) /\
    (forall e,
       @Throw ManifestJson
         (mkError "connect ECONNREFUSED 127.0.0.1:8000" (Some "ECONNREFUSED"))
         = Throw e ->
       processedDir (snd (Processor.processFile (RT := Sample.runtime Sample.chroma_down)
              "/data/raw/policy.txt" (Sample.boot 1700000000000))) = ∅ /\
       forall c, In c new -> is_write c = false).
Proof.
  apply (processFile_failure_propagates (RT := Sample.runtime Sample.chroma_down)
           "/data/raw/policy.txt" (Sample.boot 1700000000000)).
  vm_compute. reflexivity.
Defined.

(** Ingesting policy.txt upserts two chunks, indexed 0 and 1. *)
Lemma chunk_indices_contiguous_witness :
  exists docs,
    In (CallUpsert docs (Ok tt))
       (calls (snd (Processor.processFile (RT := Sample.runtime Sample.healthy)
                      "/data/raw/policy.txt" (Sample.boot 1700000000000)))) /\
    length docs = 2%nat /\ chunk_indexed docs.
Proof.
  destruct (proj1 (chunk_indices_contiguous (RT := Sample.runtime Sample.healthy)
                     "/data/raw/policy.txt" (Sample.boot 1700000000000)))
    as (new & Hcalls & Hup).
  change (calls (Sample.boot 1700000000000) ++ new) with new in Hcalls.
  assert (Hin : exists docs,
             In (CallUpsert docs (Ok tt))
                (calls (snd (Processor.processFile (RT := Sample.runtime Sample.healthy)
                               "/data/raw/policy.txt" (Sample.boot 1700000000000)))) /\
             length docs = 2%nat).
  { vm_compute. eexists. split; [do 3 right; left; reflexivity | reflexivity]. }
  destruct Hin as (docs & Hin & Hlen).
  exists docs. split; [exact Hin|]. split; [exact Hlen|].
  apply (Hup docs (Ok tt)). rewrite <- Hcalls. exact Hin.
Defined.

(** The same failure seen from [processMessage]: the apology is returned as
    an ordinary answer and the response does not escalate. *)
Lemma inference_failure_processMessage_example :
  exists resp,
    fst (ChatController.processMessage (RT := Sample.runtime Sample.llama_down)
           Sample.refund_question None (Sample.boot 1700000000000)) = Ok resp /\
    text resp = LangChainService.apology /\
    escalate resp = false.
Proof.
  vm_compute. eexists. repeat split.
Qed.

(** ** Further properties of the service and the controller *)

Lemma toLowerCase_app_inv (a b s : string) :
  Js.toLowerCase s = a +:+ b ->
  exists s1 s2, s = s1 +:+ s2 /\ Js.toLowerCase s1 = a /\ Js.toLowerCase s2 = b.
Proof.
  revert s. induction a as [|c a IH]; intros s H.
  - exists "", s. auto.
  - destruct s as [|d s]; [discriminate|].
    cbn in H. injection H as Hc Hs.
    destruct (IH s Hs) as (s1 & s2 & -> & H1 & H2).
    exists (String d s1), s2. cbn. rewrite H1, Hc. auto.
Qed.

Section MoreFacts.
Context {E : Type} {RT : Runtime E}.

Lemma shouldEscalate_true_inv (text : string) :
  ChatController.shouldEscalate text = true ->
  exists phrase, In phrase ChatController.lowConfidenceIndicators /\
                 contains_ci text phrase.
Proof.
  unfold ChatController.shouldEscalate, Js.some. intros H.
  apply existsb_exists in H as (phrase & Hin & Hinc).
  exists phrase. split; [exact Hin|].
  apply includes_inv in Hinc as (pre & post & Heq).
  apply toLowerCase_app_inv in Heq as (s1 & s23 & -> & _ & Heq).
  apply toLowerCase_app_inv in Heq as (s2 & s3 & -> & H2 & _).
  exists s1, s2, s3. auto.
Qed.


(** X2.  A retrieval that fails inside the chain does not fail the query:
    the QA prompt is built with an empty context and still sent to the
    inference server. *)
Theorem chain_retrieval_failure_swallowed (q : string) (h : list Message)
    (w w' : World E) (r : QueryResult) (new : list Call) (s : string) (e : Error) :
  LangChainService.query q h w = (Ok r, w') ->
  calls w' = calls w ++ new ->
  new !! 1%nat = Some (CallRetrieve s (Throw e)) ->
  exists rc rs,
    new = [ CallCondense (condensation_prompt q h) (Ok s);
            CallRetrieve s (Throw e);
            CallCompletion (LangChainService.qaTemplate s "") rc;
            CallRetrieve q rs ] /\
    (forall docs, rs = Ok docs ->
       qr_error r = None /\ qr_text r = answer_of rc /\
       qr_sources r = Some (map LangChainService.to_source docs)).
Proof.
  intros Hrun Hcalls Hsnd.
  destruct (query_spec q h w) as (r0 & w0 & new0 & Hrun0 & (Hcalls0 & _) & Hruns).
  rewrite Hrun in Hrun0. injection Hrun0 as <- <-.
  rewrite Hcalls in Hcalls0. apply app_inv_head in Hcalls0. subst new0.
  destruct Hruns as [(e0 & _ & -> & _) | [(e0 & _ & -> & _) |
                     (s0 & rr & rc & rs & HP & -> & ->)]]; try discriminate.
  cbn in Hsnd. injection Hsnd as -> ->.
  exists rc, rs. split; [reflexivity|].
  intros docs ->. auto.
Qed.

(** X3.  The controller's [shouldEscalate] accepts exactly the texts that
    contain one of the five phrases, in any letter case, as a substring. *)
Theorem shouldEscalate_iff_contains_ci (text : string) :
  ChatController.shouldEscalate text = true <->
  exists phrase, In phrase ChatController.lowConfidenceIndicators /\
                 contains_ci text phrase.
Proof.
  split.
  - apply shouldEscalate_true_inv.
  - intros (phrase & Hin & Hci). exact (shouldEscalate_contains_ci _ _ Hin Hci).
Qed.

(** X4.  [processMessage] escalates only for a reason: the text of the
    response contains a low-confidence phrase, or the response is the
    apology of a [query] that failed (and then it carries no sources). *)
Theorem processMessage_escalates_only_if (message : string) (cid : option string)
    (w w' : World E) (resp : ChatResponse) :
  ChatController.processMessage message cid w = (Ok resp, w') ->
  escalate resp = true ->
  (exists phrase, In phrase ChatController.lowConfidenceIndicators /\
                  contains_ci (text resp) phrase)
  \/ (text resp = LangChainService.apology /\ sources resp = []).
Proof.
  intros Hrun Hesc.
  destruct (processMessage_run message cid w)
    as (cid' & w1 & c & qr & tu & ta & t & w0 & new & wq & _ & _ & Hrun0 & _ & _ & _ & Hruns).
  rewrite Hrun in Hrun0. injection Hrun0 as -> _.
  cbn [text escalate sources] in *.
  apply orb_true_iff in Hesc as [Hq | Hs].
  - right.
    destruct Hruns as [(e & _ & _ & ->) | [(e & _ & _ & ->) |
                       (s & rr & rc & rs & _ & _ & ->)]]; [auto | auto |].
    destruct rs as [docs|e]; [discriminate | auto].
  - left. exact (shouldEscalate_true_inv _ Hs).
Qed.

End MoreFacts.

(** The chain's retrieval fails, the one for the sources answers. *)
Lemma chain_retrieval_failure_swallowed_witness :
  exists rc rs,
    calls (snd (LangChainService.query (RT := Sample.runtime SampleMore.flaky_retriever)
                  Sample.refund_question [] (Sample.boot 1700000000000)))
    = [ CallCondense (condensation_prompt (RT := Sample.runtime SampleMore.flaky_retriever)
                        Sample.refund_question [])
          (Ok (condensation_prompt (RT := Sample.runtime SampleMore.flaky_retriever)
                 Sample.refund_question []));
        CallRetrieve (condensation_prompt (RT := Sample.runtime SampleMore.flaky_retriever)
                        Sample.refund_question [])
          (Throw (mkError "connect ECONNREFUSED 127.0.0.1:8000" (Some "ECONNREFUSED")));
        CallCompletion
          (LangChainService.qaTemplate
             (condensation_prompt (RT := Sample.runtime SampleMore.flaky_retriever)
                Sample.refund_question []) "") rc;
        CallRetrieve Sample.refund_question rs ].
Proof.
  set (run := LangChainService.query (RT := Sample.runtime SampleMore.flaky_retriever)
                Sample.refund_question [] (Sample.boot 1700000000000)).
  assert (Hrun : exists r, run = (Ok r, snd run)).
  { vm_compute. eexists. reflexivity. }
  destruct Hrun as (r & Hrun).
  destruct (chain_retrieval_failure_swallowed (RT := Sample.runtime SampleMore.flaky_retriever)
              Sample.refund_question [] (Sample.boot 1700000000000) (snd run) r
              (calls (snd run))
              (condensation_prompt (RT := Sample.runtime SampleMore.flaky_retriever)
                 Sample.refund_question [])
              (mkError "connect ECONNREFUSED 127.0.0.1:8000" (Some "ECONNREFUSED"))
              Hrun eq_refl)
    as (rc & rs & Hnew & _).
  - vm_compute. reflexivity.
  - exists rc, rs. exact Hnew.
Defined.

(** The model says it does not know: the escalation has its reason in the
    text. *)
Lemma processMessage_escalates_only_if_witness :
  exists resp,
    fst (ChatController.processMessage (RT := Sample.runtime Sample.unsure)
           Sample.refund_question None (Sample.boot 1700000000000)) = Ok resp /\
    escalate resp = true /\
    ((exists phrase, In phrase ChatController.lowConfidenceIndicators /\
                     contains_ci (text resp) phrase)
     \/ (text resp = LangChainService.apology /\ sources resp = [])).
Proof.
  set (run := ChatController.processMessage (RT := Sample.runtime Sample.unsure)
                Sample.refund_question None (Sample.boot 1700000000000)).
  assert (Hrun : exists resp, run = (Ok resp, snd run) /\ escalate resp = true).
  { vm_compute. eexists. split; reflexivity. }
  destruct Hrun as (resp & Hrun & Hesc).
  exists resp. split; [rewrite Hrun; reflexivity|]. split; [exact Hesc|].
  exact (processMessage_escalates_only_if (RT := Sample.runtime Sample.unsure)
           _ _ _ _ _ Hrun Hesc).
Defined.

Section MoreFacts2.
Context {E : Type} {RT : Runtime E}.

(** X5.  After a successful [processMessage], [getConversationHistory] on
    the returned ID finds the conversation, and its last two messages are
    the user message just sent and the assistant message with the text of
    the response; the lookup changes nothing. *)
Theorem history_after_processMessage (message : string) (cid : option string)
    (w w' : World E) (resp : ChatResponse) :
  ChatController.processMessage message cid w = (Ok resp, w') ->
  error resp = None ->
  exists conv prefix mu ma,
    ChatController.getConversationHistory (Some (conversationId resp)) w'
      = (Ok (Some conv), w') /\
    messages conv = prefix ++ [mu; ma] /\
    role mu = user /\ content mu = message /\
    role ma = assistant /\ content ma = text resp.
Proof.
  intros Hrun _.
  destruct (processMessage_run message cid w)
    as (cid' & w1 & c & qr & tu & ta & t & w0 & new & wq & Hens & Hc & Hrun0 & Hv & _).
  rewrite Hrun in Hrun0. injection Hrun0 as -> <-.
  cbn [conversationId text].
  assert (Hne : String.eqb cid' "" = false).
  { apply String.eqb_neq.
    destruct (ensureConversation_run cid w)
      as [(k & -> & _ & Hk & _ & H) | (gid & wg & tm & tc & w1' & _ & Hg & H & _)];
      rewrite Hens in H; injection H as Hid _.
    - congruence.
    - destruct (generateConversationId_run w) as (t0 & r0 & wg0 & Hg0 & _).
      rewrite Hg in Hg0. injection Hg0 as Hgid _. subst. discriminate. }
  unfold ChatController.getConversationHistory, ChatController.unknownId.
  rewrite Hv, Hne, lookup_insert_eq.
  rewrite bool_decide_eq_true_2 by eauto. cbn.
  rewrite ?lookup_insert_eq.
  eexists _, (messages c), _, _. split; [reflexivity|]. cbn. auto 6.
Qed.

(** X6.  The ingest script's [processFile] never throws.  When a stage
    (load, chunk, upsert) fails it returns 0, and the run has written no
    manifest. *)
Theorem ingest_processFile_never_throws (filePath : string) (w : World E) :
  exists r w' new,
    Ingest.processFile filePath w = (Ok r, w') /\
    calls w' = calls w ++ new /\
    forall c e, In c new -> stage_failure c = Some e ->
      r = Some 0%nat /\ processedDir w' = processedDir w /\
      forall c', In c' new -> is_write c' = false.
Proof.
  destruct (Ingest.loaders !! Js.toLowerCase (extname filePath)) as [kind|] eqn:Hk.
  - destruct (ingest_processFile_accepted filePath kind w Hk)
      as (n & w' & new & failure & Hrun & Hcalls & Hsteps & Hres).
    destruct (ingestion_steps_inv _ _ _ _ Hsteps) as (Hfail & Hnowrite & _).
    exists (Some n), w', new. split; [exact Hrun|]. split; [exact Hcalls|].
    intros c e Hin Hf. rewrite (Hfail c e Hin Hf) in Hres.
    destruct Hres as (-> & Hp).
    split; [reflexivity|]. split; [exact Hp|].
    exact (Hnowrite e (Hfail c e Hin Hf)).
  - unfold Ingest.processFile, try_catch. rewrite Hk.
    exists None, w, []. rewrite app_nil_r.
    split; [reflexivity|]. split; [reflexivity|]. intros c e [].
Qed.

(** X7.  The service's [shouldEscalate(error)] is true exactly when the
    error's message, or its code, contains one of ECONNREFUSED, ETIMEDOUT or
    "no documents". *)
Theorem service_shouldEscalate_iff (e : Error) :
  LangChainService.shouldEscalate e = true <->
  exists errType,
    In errType ["ECONNREFUSED"; "ETIMEDOUT"; "no documents"] /\
    ((exists pre post, err_message e = pre +:+ errType +:+ post)
     \/ (exists c pre post, err_code e = Some c /\ c = pre +:+ errType +:+ post)).
Proof.
  unfold LangChainService.shouldEscalate, Js.some, LangChainService.criticalErrors.
  rewrite existsb_exists. split.
  - intros (t & Hin & H). exists t. split; [exact Hin|].
    apply orb_true_iff in H as [H|H].
    + left. exact (includes_inv _ _ H).
    + right. destruct (err_code e) as [c|]; [|discriminate].
      apply andb_true_iff in H as [_ H].
      destruct (includes_inv _ _ H) as (pre & post & Hc). eauto.
  - intros (t & Hin & [(pre & post & Hm) | (c & pre & post & Hc & Heq)]).
    + exists t. split; [exact Hin|]. rewrite Hm, includes_app. reflexivity.
    + exists t. split; [exact Hin|]. rewrite Hc.
      assert (Hne : String.eqb c "" = false).
      { subst c. cbn in Hin. destruct pre; [|reflexivity].
        destruct Hin as [<-|[<-|[<-|[]]]]; reflexivity. }
      rewrite Hne. subst c. rewrite includes_app. cbn. apply orb_true_r.
Qed.

End MoreFacts2.

(** After a first message the history holds it, followed by the answer. *)
Lemma history_after_processMessage_witness :
  exists conv prefix mu ma,
    fst (ChatController.getConversationHistory
           (Some "conv-1700000000000-k3x9q")
           (snd (ChatController.processMessage (RT := Sample.runtime Sample.healthy)
                   Sample.refund_question None (Sample.boot 1700000000000))))
      = Ok (Some conv) /\
    messages conv = prefix ++ [mu; ma] /\
    content mu = Sample.refund_question /\
    content ma = "Refunds are issued within 30 days.".
Proof.
  set (run := ChatController.processMessage (RT := Sample.runtime Sample.healthy)
                Sample.refund_question None (Sample.boot 1700000000000)).
  assert (Hrun : exists resp,
             run = (Ok resp, snd run) /\ error resp = None /\
             conversationId resp = "conv-1700000000000-k3x9q" /\
             text resp = "Refunds are issued within 30 days.").
  { vm_compute. eexists. repeat split. }
  destruct Hrun as (resp & Hrun & Herr & Hid & Htext).
  destruct (history_after_processMessage (RT := Sample.runtime Sample.healthy)
              _ _ _ _ _ Hrun Herr)
    as (conv & prefix & mu & ma & Hget & Hmsgs & _ & Hmu & _ & Hma).
  rewrite Hid in Hget. rewrite Htext in Hma.
  exists conv, prefix, mu, ma. rewrite Hget. auto.
Defined.

(** ** The manifests *)

Section ManifestFacts.
Context {E : Type} {RT : Runtime E}.

(** A [processFile] of the service that returns has run every stage, in
    order, and written the manifest it returns last. *)
Lemma processFile_success_run (filePath : string) (w w' : World E) (info : ManifestJson) :
  Processor.processFile filePath w = (Ok info, w') ->
  let ext := Js.toLowerCase (extname filePath) in
  let fileName := basename filePath None in
  let name := basename filePath (Some ext) +:+ ".json" in
  exists new docs0 sd pdocs processedAt,
    calls w' = calls w ++ new /\
    In (CallSplit docs0 (Ok sd)) new /\
    In (CallUpsert pdocs (Ok tt)) new /\
    last new = Some (CallWriteFile name info) /\
    length pdocs = length sd /\
    info = ServiceInfo fileName filePath fileName (length pdocs) processedAt ext /\
    processedDir w' = <[name := info]> (processedDir w).
Proof.
  intros Hrun ext fileName name.
  unfold Processor.processFile in Hrun. fold ext fileName in Hrun.
  destruct (Processor.loaders !! ext) as [kind|]; [|discriminate].
  unfold Processor.load, Processor.split, Processor.fromDocuments in Hrun.
  destruct (traced_run (loader_load kind filePath) (CallLoad kind filePath) w)
    as (rl & w1 & _ & H1 & (Hl1 & _ & Hp1) & _).
  destruct rl as [docs|e]; [|rewrite (bind_throw _ _ _ _ _ H1) in Hrun; discriminate].
  rewrite (bind_ok _ _ _ _ _ H1) in Hrun.
  destruct (traced_run (splitDocuments docs) (CallSplit docs) w1)
    as (rs & w2 & _ & H2 & (Hl2 & _ & Hp2) & _).
  destruct rs as [sd|e]; [|rewrite (bind_throw _ _ _ _ _ H2) in Hrun; discriminate].
  rewrite (bind_ok _ _ _ _ _ H2) in Hrun.
  destruct (addMetadata_run fileName filePath sd 0%nat w2)
    as (pdocs & w3 & H3 & (Hl3 & _ & Hp3) & _ & Hpc & _).
  rewrite (bind_ok _ _ _ _ _ H3) in Hrun.
  destruct (getEmbeddings_run w3)
    as (re & w4 & emb & H4 & (Hl4 & _ & Hp4) & [[-> Hemb] | (e & -> & ->)]);
    [|rewrite (bind_throw _ _ _ _ _ H4) in Hrun; discriminate].
  rewrite (bind_ok _ _ _ _ _ H4) in Hrun.
  destruct (traced_run (Chroma_fromDocuments pdocs) (CallUpsert pdocs) w4)
    as (ru & w5 & _ & H5 & (Hl5 & _ & Hp5) & _).
  destruct ru as [[]|e]; [|rewrite (bind_throw _ _ _ _ _ H5) in Hrun; discriminate].
  rewrite (bind_ok _ _ _ _ _ H5) in Hrun.
  destruct (now_iso_extends w5) as (t & w6 & H6 & (Hl6 & _ & Hp6) & _).
  rewrite (bind_ok _ _ _ _ _ H6) in Hrun.
  erewrite bind_ok in Hrun by apply writeFileSync_run.
  unfold ret in Hrun. injection Hrun as <- <-.
  rewrite Hl5, Hl4, Hl3, Hl2, Hl1, !app_nil_r, <- !app_assoc in Hl6.
  exists ([CallLoad kind filePath (Ok docs)] ++ [CallSplit docs (Ok sd)] ++ emb ++
          [CallUpsert pdocs (Ok tt)] ++
          [CallWriteFile name
             (ServiceInfo fileName filePath fileName (length pdocs) t ext)]),
         docs, sd, pdocs, t.
  split; [cbn [calls set_processedDir add_call]; rewrite Hl6, <- !app_assoc; reflexivity|].
  split; [apply in_app_iff; right; left; reflexivity|].
  split; [do 3 (apply in_app_iff; right); left; reflexivity|].
  split; [rewrite !app_assoc; apply last_snoc|].
  split; [rewrite <- (length_map pageContent pdocs), Hpc; apply length_map|].
  split; [reflexivity|].
  cbn. rewrite Hp6, Hp5, Hp4, Hp3, Hp2, Hp1. reflexivity.
Qed.


(** X9.  What [processFile] stored, [getDocumentDetails] returns, for any
    document ID that names the same manifest file as the ingested path. *)
Theorem getDocumentDetails_after_processFile (filePath id : string)
    (w w' : World E) (info : ManifestJson) :
  Processor.processFile filePath w = (Ok info, w') ->
  basename id (Some (extname id))
    = basename filePath (Some (Js.toLowerCase (extname filePath))) ->
  ProcessorDocs.getDocumentDetails id w' = (Ok (Some info), w').
Proof.
  intros Hrun Hname.
  destruct (processFile_success_run filePath w w' info Hrun)
    as (new & docs0 & sd & pdocs & t & _ & _ & _ & _ & _ & _ & Hp).
  unfold ProcessorDocs.getDocumentDetails, ProcessorDocs.metaFile.
  rewrite Hname, Hp, lookup_insert_eq. reflexivity.
Qed.



End ManifestFacts.


(** The manifest of policy.txt is found under the ID policy.txt. *)
Lemma getDocumentDetails_after_processFile_witness :
  exists info,
    fst (Processor.processFile (RT := Sample.runtime Sample.healthy)
           "/data/raw/policy.txt" (Sample.boot 1700000000000)) = Ok info /\
    fst (ProcessorDocs.getDocumentDetails (RT := Sample.runtime Sample.healthy)
           "policy.txt"
           (snd (Processor.processFile (RT := Sample.runtime Sample.healthy)
                   "/data/raw/policy.txt" (Sample.boot 1700000000000))))
      = Ok (Some info).
Proof.
  set (run := Processor.processFile (RT := Sample.runtime Sample.healthy)
                "/data/raw/policy.txt" (Sample.boot 1700000000000)).
  assert (Hrun : exists info, run = (Ok info, snd run)).
  { vm_compute. eexists. reflexivity. }
  destruct Hrun as (info & Hrun).
  exists info. split; [rewrite Hrun; reflexivity|].
  rewrite (getDocumentDetails_after_processFile (RT := Sample.runtime Sample.healthy)
             "/data/raw/policy.txt" "policy.txt" _ _ _ Hrun).
  - reflexivity.
  - vm_compute. reflexivity.
Defined.


(** ** The upload name *)

Lemma safe_char_replacement (c : ascii) :
  Upload.safe_char (if Upload.safe_char c then c else "_"%char) = true.
Proof. destruct (Upload.safe_char c) eqn:H; [exact H | reflexivity]. Qed.

(** X11.  The sanitised name has the length of the original, is made of
    letters, digits, dots, underscores and hyphens only, so it holds no
    path separator, and sanitising it again changes nothing; a name that is
    already clean is kept as it is. *)
Theorem safeName_clean (originalname : string) :
  String.length (Upload.safeName originalname) = String.length originalname /\
  Forall (fun c => Upload.safe_char c = true)
         (list_ascii_of_string (Upload.safeName originalname)) /\
  Js.includes (Upload.safeName originalname) "/" = false /\
  Js.includes (Upload.safeName originalname) "\" = false /\
  Upload.safeName (Upload.safeName originalname) = Upload.safeName originalname /\
  (Forall (fun c => Upload.safe_char c = true) (list_ascii_of_string originalname) ->
   Upload.safeName originalname = originalname).
Proof.
  induction originalname as [|c s (Hlen & Hall & Hslash & Hback & Hidem & Hid)].
  - cbn. repeat split; auto.
  - cbn [Upload.safeName String.length list_ascii_of_string].
    pose proof (safe_char_replacement c) as Hc.
    set (c' := if Upload.safe_char c then c else "_"%char) in *.
    split; [now rewrite Hlen|].
    split; [constructor; assumption|].
    split; [|split; [|split]].
    + cbn. rewrite Hslash.
      destruct (decide ("/"%char = c')) as [<-|]; [discriminate Hc | reflexivity].
    + cbn. rewrite Hback.
      destruct (decide ("\"%char = c')) as [<-|]; [discriminate Hc | reflexivity].
    + rewrite Hc, Hidem. reflexivity.
    + intros H. inversion H as [|? ? Hsafe Hrest]; subst.
      unfold c'. rewrite Hsafe, (Hid Hrest). reflexivity.
Qed.

(** ** The chat routes *)

Section RouteFacts.
Context {E : Type} {RT : Runtime E}.

(** X12.  POST /message never fails the request: without a message it
    answers 400 and touches nothing; with one it always answers 200, and
    the body is what [processMessage] returned. *)
Theorem postMessage_status (message conversationId : option string) (w : World E) :
  (ChatRoutes.missing message = true ->
   ChatRoutes.postMessage message conversationId w
     = (Ok (ChatRoutes.mkHttpResponse 400 (ChatRoutes.JsonError "Message is required")), w))
  /\ (forall m, message = Some m -> m <> "" ->
      exists resp w',
        ChatController.processMessage m conversationId w = (Ok resp, w') /\
        ChatRoutes.postMessage message conversationId w
          = (Ok (ChatRoutes.mkHttpResponse 200 (ChatRoutes.JsonChat resp)), w')).
Proof.
  split.
  - intros Hm. unfold ChatRoutes.postMessage, try_catch. rewrite Hm. reflexivity.
  - intros m -> Hne.
    destruct (processMessage_run m conversationId w)
      as (cid' & w1 & c & qr & tu & ta & t & w' & new & wq & _ & _ & Hrun & _).
    eexists _, w'. split; [exact Hrun|].
    unfold ChatRoutes.postMessage, try_catch. cbn [ChatRoutes.missing default].
    apply String.eqb_neq in Hne. rewrite Hne.
    rewrite (bind_ok _ _ _ _ _ Hrun). reflexivity.
Qed.

(** X13.  POST /escalate, in a store whose keys are generated IDs: without
    a conversation ID it answers 400; for an unknown ID it answers 500
    "Failed to escalate conversation", not 404; for a known ID it answers
    200 with a pending ticket for that conversation, whose reason is the one
    given or, when none is given, "User requested assistance".  The store
    is never changed. *)
Theorem postEscalate_status (conversationId reason : option string) (w : World E) :
  keys_generated (conversations w) ->
  (ChatRoutes.missing conversationId = true ->
   ChatRoutes.postEscalate conversationId reason w
     = (Ok (ChatRoutes.mkHttpResponse 400
              (ChatRoutes.JsonError "Conversation ID is required")), w))
  /\ (forall c, conversationId = Some c -> c <> "" -> conversations w !! c = None ->
      ChatRoutes.postEscalate conversationId reason w
        = (Ok (ChatRoutes.mkHttpResponse 500
                 (ChatRoutes.JsonError "Failed to escalate conversation")), w))
  /\ (forall c, conversationId = Some c -> is_Some (conversations w !! c) ->
      exists ticket w',
        ChatRoutes.postEscalate conversationId reason w
          = (Ok (ChatRoutes.mkHttpResponse 200 (ChatRoutes.JsonTicket ticket)), w') /\
        status ticket = pending /\ ticket_conversationId ticket = c /\
        ticket_reason ticket
          = (if ChatRoutes.missing reason then "User requested assistance"
             else default "" reason) /\
        conversations w' = conversations w).
Proof.
  intros Hkeys. split; [|split].
  - intros Hm. unfold ChatRoutes.postEscalate, try_catch. rewrite Hm. reflexivity.
  - intros c -> Hne Hnone.
    unfold ChatRoutes.postEscalate, try_catch. cbn [ChatRoutes.missing].
    apply String.eqb_neq in Hne. rewrite Hne.
    assert (Hu : ChatController.unknownId (Some c) (conversations w) = true).
    { cbn. rewrite Hnone.
      rewrite bool_decide_eq_false_2 by (intros [? ?]; discriminate).
      apply orb_true_r. }
    erewrite bind_throw; [reflexivity|].
    unfold ChatController.handleEscalation, try_catch.
    unfold bind at 1. rewrite Hu. reflexivity.
  - intros c -> [conv Hc].
    assert (Hne : String.eqb c "" = false).
    { apply String.eqb_neq. intros ->. specialize (Hkeys _ _ Hc). discriminate. }
    assert (Hknown : ChatController.unknownId (Some c) (conversations w) = false).
    { cbn. rewrite Hne, Hc. rewrite bool_decide_eq_true_2 by eauto. reflexivity. }
    set (rsn := if ChatRoutes.missing reason then "User requested assistance"
                else default "" reason).
    assert (Hesc : exists ticket w',
               ChatController.handleEscalation (Some c) rsn w = (Ok ticket, w') /\
               status ticket = pending /\ ticket_conversationId ticket = c /\
               ticket_reason ticket = rsn /\ conversations w' = conversations w).
    { unfold ChatController.handleEscalation, try_catch.
      unfold bind at 1. rewrite Hknown.
      destruct (Date_now (ext w)) as [t e1] eqn:Ht.
      destruct (random_suffix e1) as [r e2] eqn:Hr.
      destruct (Date_now e2) as [t2 e3] eqn:Ht2.
      unfold_monad. rewrite Ht. cbn. rewrite Hr. cbn. rewrite Ht2. cbn.
      eexists _, _. split; [reflexivity|]. cbn. auto. }
    destruct Hesc as (ticket & w' & Hrun & Hst & Hid & Hrs & Hv).
    exists ticket, w'.
    split; [|auto].
    unfold ChatRoutes.postEscalate, try_catch. cbn [ChatRoutes.missing].
    rewrite Hne. fold rsn. rewrite (bind_ok _ _ _ _ _ Hrun). reflexivity.
Qed.

(** X14.  GET /history/:id answers 404 "Conversation not found" for an ID
    that is not in the store and 200 with the stored conversation for one
    that is; it never changes the store. *)
Theorem getHistory_status (c : string) (w : World E) :
  c <> "" ->
  (conversations w !! c = None ->
   ChatRoutes.getHistory (Some c) w
     = (Ok (ChatRoutes.mkHttpResponse 404
              (ChatRoutes.JsonError "Conversation not found")), w))
  /\ (forall conv, conversations w !! c = Some conv ->
      ChatRoutes.getHistory (Some c) w
        = (Ok (ChatRoutes.mkHttpResponse 200 (ChatRoutes.JsonConversation conv)), w)).
Proof.
  intros Hne. apply String.eqb_neq in Hne.
  unfold ChatRoutes.getHistory, try_catch, ChatController.getConversationHistory,
    ChatController.unknownId, bind, ret.
  cbn [ChatRoutes.missing default]. rewrite Hne. split.
  - intros Hnone. rewrite Hnone.
    rewrite bool_decide_eq_false_2 by (intros [? ?]; discriminate). reflexivity.
  - intros conv Hc. rewrite Hc.
    rewrite bool_decide_eq_true_2 by eauto. cbn. rewrite Hc. reflexivity.
Qed.

End RouteFacts.

(** Escalating "conv-X", which no one created, is answered with 500. *)
Lemma postEscalate_status_witness :
  let w1 := snd (ChatController.processMessage (RT := Sample.runtime Sample.healthy)
                   Sample.refund_question None (Sample.boot 1700000000000)) in
  ChatRoutes.postEscalate (RT := Sample.runtime Sample.healthy)
    (Some "conv-X") None w1
  = (Ok (ChatRoutes.mkHttpResponse 500
           (ChatRoutes.JsonError "Failed to escalate conversation")), w1).
Proof.
  intros w1.
  assert (Hkeys : keys_generated (conversations w1)).
  { apply (processMessage_keys_generated (RT := Sample.runtime Sample.healthy)).
    intros k c H. change ((∅ : gmap string Conversation) !! k = Some c) in H.
    rewrite lookup_empty in H. discriminate. }
  apply (proj1 (proj2 (postEscalate_status (RT := Sample.runtime Sample.healthy)
                         (Some "conv-X") None w1 Hkeys)) "conv-X" eq_refl).
  - discriminate.
  - vm_compute. reflexivity.
Defined.

(** On a fresh process no conversation is found. *)
Lemma getHistory_status_witness :
  ChatRoutes.getHistory (Some "conv-X") (Sample.boot 1700000000000)
  = (Ok (ChatRoutes.mkHttpResponse 404 (ChatRoutes.JsonError "Conversation not found")),
     Sample.boot 1700000000000).
Proof.
  apply (proj1 (getHistory_status "conv-X" (Sample.boot 1700000000000)
                  ltac:(discriminate))).
  reflexivity.
Defined.
